(** * Pi-hole Terraform provider: the DNS record client and resource

    A shallow embedding of [internal/pihole/dns.go] (the DNS record client
    with its token and session paths) and of the DNS record resource of the
    provider package (schema and create / read / delete handlers), with the
    properties of the specification stated over it. *)

From Stdlib Require Import Ascii String.
From stdpp Require Import base option list strings gmap.

Local Open Scope string_scope.
Local Open Scope list_scope.

(** ** The Go runtime the client is written against *)

Module Go.

(** [strings.Split(s, sep)] for a separator of one byte: the pieces between
    the occurrences of [sep], always at least one piece. *)
Fixpoint strings_Split (s : string) (sep : ascii) : list string :=
  match s with
  | EmptyString => [EmptyString]
  | String c rest =>
      if Ascii.eqb c sep then EmptyString :: strings_Split rest sep
      else match strings_Split rest sep with
           | piece :: pieces => String c piece :: pieces
           | [] => [String c EmptyString]
           end
  end.

(** Error values.  [NotFoundError] is the error type of this package
    (errors.go), built by [NewNotFoundError msg]; [ErrorLocalDNSNotFound] is
    the sentinel of the go-pihole library; [ErrorString] is what
    [errors.New] and [fmt.Errorf] without [%w] build; [Wrapped] is an error
    with an [Unwrap] method; [ExternalError] stands for every other error of
    the HTTP stack, the JSON decoder or the library. *)
Inductive error : Type :=
| NotFoundError (msg : string)
| ErrorLocalDNSNotFound
| ErrorString (msg : string)
| Wrapped (msg : string) (inner : error)
| ExternalError (code : nat).

(** [errors.Is(err, pihole.ErrorLocalDNSNotFound)]: the sentinel itself or
    something that unwraps to it. *)
Fixpoint errors_Is_LocalDNSNotFound (err : error) : bool :=
  match err with
  | ErrorLocalDNSNotFound => true
  | Wrapped _ inner => errors_Is_LocalDNSNotFound inner
  | _ => false
  end.

(** The type assertion of [err] to a pointer to [pihole.NotFoundError]. *)
Definition is_NotFoundError (err : error) : bool :=
  match err with NotFoundError _ => true | _ => false end.

(** How a [for ... := range] statement treats its variables: one variable
    for the whole statement (language versions before 1.22) or a fresh one
    per iteration (1.22 and later).  The version is fixed by the [go] line
    of go.mod. *)
Inductive LoopVar : Type := PerLoop | PerIteration.

(** What the build and the standard library contribute and the package does
    not define: the loop variable rule, [strings.ToLower], the [%q] verb
    applied to a string ([strconv.Quote]) and the text that [fmt.Errorf]
    produces from a format given no operands. *)
Class Env : Type := {
  loopvar : LoopVar;
  strings_ToLower : string -> string;
  fmt_q : string -> string;
  fmt_Errorf0 : string -> string
}.

End Go.

(** ** Package pihole: data *)

Module pihole.
Import Go.

Record DNSRecord : Type := { Domain : string; IP : string }.

Abbreviation DNSRecordList := (list DNSRecord).

Record DNSRecordsListResponse : Type := { Data : list (list string) }.

Record CreateDNSRecordResponse : Type := { Success : bool; Message : string }.

(** The loop body of [ToDNSRecordList]: [record[0]] and [record[1]] are
    index expressions and fail on a row that is too short. *)
Definition row_to_record (record : list string) : option DNSRecord :=
  d ← record !! 0%nat;
  ip ← record !! 1%nat;
  Some {| Domain := d; IP := ip |}.

Fixpoint ToDNSRecordList_loop (rows : list (list string)) (list : DNSRecordList)
  : option DNSRecordList :=
  match rows with
  | [] => Some list
  | record :: rows' =>
      r ← row_to_record record;
      ToDNSRecordList_loop rows' (list ++ [r])
  end.

(** [ToDNSRecordList]; [None] is the run-time panic of an index out of
    range. *)
Definition ToDNSRecordList (rr : DNSRecordsListResponse) : option DNSRecordList :=
  ToDNSRecordList_loop (Data rr) [].

(** *** Effects

    The client talks to the go-pihole library (token path) and to the HTTP
    stack (session path).  Each such interaction is a [Call]; what comes
    back is its [Answer].  Go's (value, error) results are pairs whose
    second component is [None] for a nil error. *)

Definition TokenClient : Type := nat.
Definition Request : Type := nat.
Definition Response : Type := nat.

(** [url.Values], a map from a key to its values; the keys below are
    distinct, so the order of the entries carries no meaning. *)
Definition Values : Type := list (string * list string).

Inductive Call : Type :=
| LocalDNS_List (t : TokenClient)
| LocalDNS_Create (t : TokenClient) (domain ip : string)
| LocalDNS_Get (t : TokenClient) (domain : string)
| LocalDNS_GetList (t : TokenClient) (domain : string)
| LocalDNS_Delete (t : TokenClient) (domain : string)
| RequestWithSession (method path : string) (data : Values)
| HTTP_Do (req : Request)
| Decode_DNSRecordsListResponse (res : Response)
| Decode_CreateDNSRecordResponse (res : Response)
| Body_Close (res : Response).

(** Pointers to records that the library hands over are answers by value:
    [None] for a nil pointer; the client gives each one a cell of its own
    ([import_ptr] below). *)
Definition Answer (c : Call) : Type :=
  match c with
  | LocalDNS_List _ => DNSRecordList * option error
  | LocalDNS_Create _ _ _ => option DNSRecord * option error
  | LocalDNS_Get _ _ => option DNSRecord * option error
  | LocalDNS_GetList _ _ => list (option DNSRecord) * option error
  | LocalDNS_Delete _ _ => option error
  | RequestWithSession _ _ _ => Request * option error
  | HTTP_Do _ => Response * option error
  | Decode_DNSRecordsListResponse _ => DNSRecordsListResponse * option error
  | Decode_CreateDNSRecordResponse _ => CreateDNSRecordResponse * option error
  | Body_Close _ => unit
  end.

(** A pointer to a [DNSRecord]: nil or the address of a variable. *)
Abbreviation ptr := (option nat).

(** Programs: a tree of calls and of operations on record variables, ending
    in a result or in a run-time panic.  [Load] and [Store] report a nil
    pointer to the program, which then panics. *)
Inductive Prog (R : Type) : Type :=
| Ret (r : R)
| Panic
| Vis (c : Call) (k : Answer c -> Prog R)
| New (v : DNSRecord) (k : ptr -> Prog R)
| Load (p : ptr) (k : option DNSRecord -> Prog R)
| Store (p : ptr) (v : DNSRecord) (k : bool -> Prog R).

Arguments Ret {R} r.
Arguments Panic {R}.
Arguments Vis {R} c k.
Arguments New {R} v k.
Arguments Load {R} p k.
Arguments Store {R} p v k.

Fixpoint bind {A B : Type} (p : Prog A) (f : A -> Prog B) : Prog B :=
  match p with
  | Ret r => f r
  | Panic => Panic
  | Vis c k => Vis c (fun a => bind (k a) f)
  | New v k => New v (fun a => bind (k a) f)
  | Load a k => Load a (fun v => bind (k v) f)
  | Store a v k => Store a v (fun ok => bind (k ok) f)
  end.

#[global] Instance Prog_ret : MRet Prog := fun _ r => Ret r.
#[global] Instance Prog_bind : MBind Prog := fun _ _ f p => bind p f.

Definition call (c : Call) : Prog (Answer c) := Vis c Ret.

(** A new variable holding [v]; its address. *)
Definition new (v : DNSRecord) : Prog ptr := New v Ret.

(** Reading through a pointer, as in [record.Domain]. *)
Definition load (p : ptr) : Prog DNSRecord :=
  Load p (fun o => match o with Some v => Ret v | None => Panic end).

(** Assigning to the variable at [p]. *)
Definition store (p : ptr) (v : DNSRecord) : Prog unit :=
  Store p v (fun ok => if ok : bool then Ret tt else Panic).

(** [defer cleanup] around [p]: [cleanup] runs when [p] returns and also
    when it panics. *)
Fixpoint defer {R : Type} (cleanup : Prog unit) (p : Prog R) : Prog R :=
  match p with
  | Ret r => bind cleanup (fun _ => Ret r)
  | Panic => bind cleanup (fun _ => Panic)
  | Vis c k => Vis c (fun a => defer cleanup (k a))
  | New v k => New v (fun a => defer cleanup (k a))
  | Load a k => Load a (fun v => defer cleanup (k v))
  | Store a v k => Store a v (fun ok => defer cleanup (k ok))
  end.

(** [if err != nil { return ret(err) }] followed by the rest. *)
Definition on_err {R : Type} (err : option error) (ret : error -> R) (k : Prog R)
  : Prog R :=
  match err with
  | Some e => Ret (ret e)
  | None => k
  end.

Definition import_ptr (o : option DNSRecord) : Prog ptr :=
  match o with
  | None => Ret None
  | Some v => new v
  end.

Fixpoint import_ptrs (os : list (option DNSRecord)) : Prog (list ptr) :=
  match os with
  | [] => Ret []
  | o :: os' =>
      p ← import_ptr o;
      ps ← import_ptrs os';
      Ret (p :: ps)
  end.

(** *** The client *)

(** Of the [Client] struct (client.go) only [tokenClient] is read here. *)
Record Client : Type := { tokenClient : option TokenClient }.

Definition NewNotFoundError (msg : string) : error := NotFoundError msg.

Definition customdns_php : string := "/admin/scripts/pi-hole/php/customdns.php".

Section WithEnv.
Context {env : Env}.

Definition ListDNSRecords (c : Client) : Prog (DNSRecordList * option error) :=
  match tokenClient c with
  | Some t => call (LocalDNS_List t)
  | None =>
      '(req, err) ← call (RequestWithSession "POST" customdns_php
                            [("action", ["get"])]);
      on_err err (fun e => ([], Some e)) $
      '(res, err) ← call (HTTP_Do req);
      on_err err (fun e => ([], Some e)) $
      defer (call (Body_Close res)) $
      '(dnsRes, err) ← call (Decode_DNSRecordsListResponse res);
      on_err err (fun e => ([], Some e)) $
      match ToDNSRecordList dnsRes with
      | None => Panic
      | Some lst => Ret (lst, None)
      end
  end.

Definition CreateDNSRecord (c : Client) (record : ptr)
  : Prog (ptr * option error) :=
  match tokenClient c with
  | Some t =>
      r ← load record;
      '(created, err) ← call (LocalDNS_Create t (Domain r) (IP r));
      p ← import_ptr created;
      Ret (p, err)
  | None =>
      r ← load record;
      '(req, err) ← call (RequestWithSession "POST" customdns_php
                            [("action", ["add"]);
                             ("ip", [IP r]);
                             ("domain", [Domain r])]);
      on_err err (fun e => (None, Some e)) $
      '(res, err) ← call (HTTP_Do req);
      on_err err (fun e => (None, Some e)) $
      defer (call (Body_Close res)) $
      '(created, err) ← call (Decode_CreateDNSRecordResponse res);
      on_err err (fun e => (None, Some e)) $
      if negb (Success created)
      then Ret (None, Some (ErrorString (fmt_Errorf0 (Message created))))
      else Ret (record, None)
  end.

(** The loop of [GetDNSRecordList].  [var] is the variable [record] of the
    range statement: one cell for all iterations under [PerLoop], a new
    cell in each iteration under [PerIteration]; [&record] is its
    address. *)
Fixpoint GetDNSRecordList_loop (var : ptr) (lst : DNSRecordList)
    (domain : string) (results : list ptr) : Prog (list ptr) :=
  match lst with
  | [] => Ret results
  | elem :: lst' =>
      record ← match loopvar with
               | PerLoop => _ ← store var elem; Ret var
               | PerIteration => new elem
               end;
      r ← load record;
      if String.eqb (Domain r) (strings_ToLower domain)
      then GetDNSRecordList_loop var lst' domain (results ++ [record])
      else GetDNSRecordList_loop var lst' domain results
  end.

Definition GetDNSRecordList (c : Client) (domain : string)
  : Prog (list ptr * option error) :=
  match tokenClient c with
  | Some t =>
      '(records, err) ← call (LocalDNS_GetList t domain);
      match err with
      | Some e =>
          if errors_Is_LocalDNSNotFound e
          then Ret ([], Some (NewNotFoundError
                   ("dns record with domain " +:+ fmt_q domain +:+ " not found")))
          else Ret ([], Some e)
      | None =>
          ps ← import_ptrs records;
          Ret (ps, None)
      end
  | None =>
      '(lst, err) ← ListDNSRecords c;
      on_err err (fun e => ([], Some e)) $
      var ← match loopvar with
            | PerLoop => new {| Domain := ""; IP := "" |}
            | PerIteration => Ret None
            end;
      results ← GetDNSRecordList_loop var lst domain [];
      if Nat.eqb (length results) 0
      then Ret ([], Some (NewNotFoundError
               ("record " +:+ fmt_q domain +:+ " not found")))
      else Ret (results, None)
  end.

Definition GetDNSRecord (c : Client) (domain : string)
  : Prog (ptr * option error) :=
  match tokenClient c with
  | Some t =>
      '(record, err) ← call (LocalDNS_Get t domain);
      match err with
      | Some e =>
          if errors_Is_LocalDNSNotFound e
          then Ret (None, Some (NewNotFoundError
                   ("dns record with domain " +:+ fmt_q domain +:+ " not found")))
          else Ret (None, Some e)
      | None =>
          p ← import_ptr record;
          Ret (p, None)
      end
  | None =>
      '(lst, err) ← GetDNSRecordList c domain;
      on_err err (fun e => (None, Some e)) $
      match lst with
      | [] => Panic
      | first :: _ => Ret (first, None)
      end
  end.

(** The function literal in the loop of [DeleteDNSRecord]. *)
Definition DeleteDNSRecord_one (record : ptr) : Prog (option error) :=
  r ← load record;
  '(req, err) ← call (RequestWithSession "POST" customdns_php
                        [("action", ["delete"]);
                         ("ip", [IP r]);
                         ("domain", [Domain r])]);
  on_err err Some $
  '(res, err) ← call (HTTP_Do req);
  on_err err Some $
  defer (call (Body_Close res)) $
  Ret None.

Fixpoint DeleteDNSRecord_loop (records : list ptr) : Prog (option error) :=
  match records with
  | [] => Ret None
  | record :: records' =>
      err ← DeleteDNSRecord_one record;
      on_err err Some $
      DeleteDNSRecord_loop records'
  end.

Definition DeleteDNSRecord (c : Client) (domain : string) : Prog (option error) :=
  match tokenClient c with
  | Some t => call (LocalDNS_Delete t domain)
  | None =>
      '(records, err) ← GetDNSRecordList c domain;
      on_err err Some $
      DeleteDNSRecord_loop records
  end.

End WithEnv.

End pihole.

(** ** Running a program against the outside world *)

Module Exec.
Import Go pihole.

(** The record variables that exist, by address. *)
Abbreviation Heap := (list DNSRecord).

(** One interaction: the call and what it was answered. *)
Record Event : Type := { ev_call : Call; ev_answer : Answer ev_call }.

(** The outside world (the Pi-hole server, the network, the library):
    whatever it answers to a call may depend on everything that happened
    before. *)
Definition World : Type := list Event -> forall c : Call, Answer c.

Inductive Outcome (R : Type) : Type :=
| Returned (r : R)
| Panicked.

Arguments Returned {R} r.
Arguments Panicked {R}.

(** [run w p h hist]: run [p] from heap [h] after the interactions [hist];
    the result is the outcome, the final heap and the interactions of [p]
    itself, oldest first. *)
Fixpoint run {R : Type} (w : World) (p : Prog R) (h : Heap) (hist : list Event)
  : Outcome R * Heap * list Event :=
  match p with
  | Ret r => (Returned r, h, [])
  | Panic => (Panicked, h, [])
  | Vis c k =>
      let ev := {| ev_call := c; ev_answer := w hist c |} in
      let '(o, h', tr) := run w (k (w hist c)) h (hist ++ [ev]) in
      (o, h', ev :: tr)
  | New v k => run w (k (Some (length h))) (h ++ [v]) hist
  | Load p k => run w (k (p ≫= (fun a => h !! a))) h hist
  | Store p v k =>
      match p ≫= (fun a => h !! a) with
      | Some _ => run w (k true) (from_option (fun a => <[a:=v]> h) h p) hist
      | None => run w (k false) h hist
      end
  end.

Definition outcome {R : Type} (x : Outcome R * Heap * list Event) : Outcome R :=
  x.1.1.
Definition heap {R : Type} (x : Outcome R * Heap * list Event) : Heap :=
  x.1.2.
Definition trace {R : Type} (x : Outcome R * Heap * list Event) : list Event :=
  x.2.

(** The record a pointer points to. *)
Definition deref (h : Heap) (p : ptr) : option DNSRecord :=
  p ≫= (fun a => h !! a).

(** The error a call was answered with, if any. *)
Definition ev_error (ev : Event) : option error :=
  match ev with
  | {| ev_call := c; ev_answer := a |} =>
      match c return Answer c -> option error with
      | LocalDNS_List _ => snd
      | LocalDNS_Create _ _ _ => snd
      | LocalDNS_Get _ _ => snd
      | LocalDNS_GetList _ _ => snd
      | LocalDNS_Delete _ _ => id
      | RequestWithSession _ _ _ => snd
      | HTTP_Do _ => snd
      | Decode_DNSRecordsListResponse _ => snd
      | Decode_CreateDNSRecordResponse _ => snd
      | Body_Close _ => fun _ => None
      end a
  end.

(** Calls into the go-pihole library. *)
Definition is_token_call (c : Call) : bool :=
  match c with
  | LocalDNS_List _ | LocalDNS_Create _ _ _ | LocalDNS_Get _ _
  | LocalDNS_GetList _ _ | LocalDNS_Delete _ _ => true
  | _ => false
  end.

(** Calls of the session path: building the request, sending it, reading
    and closing the body. *)
Definition is_session_call (c : Call) : bool := negb (is_token_call c).

(** The form of a request built by [RequestWithSession]. *)
Definition request_of (c : Call) : option (string * string * Values) :=
  match c with
  | RequestWithSession method path data => Some (method, path, data)
  | _ => None
  end.

(** The requests built during a run, in order. *)
Definition requests (tr : list Event) : list (string * string * Values) :=
  omap (fun ev => request_of (ev_call ev)) tr.

End Exec.

(** ** Package provider: the DNS record resource *)

Module provider.
Import Go pihole.

(** What the plugin SDK provides.  [ResourceData] is the SDK's view of one
    resource instance: its ID and its attribute values, here all of type
    string, together with the schema they are checked against. *)
Inductive ValueType : Type := TypeBool | TypeInt | TypeString.

Record Schema : Type := {
  Description : string;
  Type_ : ValueType;
  Required : bool;
  Optional : bool;
  Computed : bool;
  ForceNew : bool
}.

Record ResourceData : Type := {
  rd_schema : gmap string Schema;
  rd_id : string;
  rd_attrs : gmap string string
}.

(** [d.Id()], [d.SetId(v)], [d.Get(key).(string)] (the zero value when the
    attribute is unset) and [d.Set(key, value)] (an error when the schema
    has no such attribute). *)
Definition d_Id (d : ResourceData) : string := rd_id d.

Definition d_SetId (d : ResourceData) (v : string) : ResourceData :=
  {| rd_schema := rd_schema d; rd_id := v; rd_attrs := rd_attrs d |}.

Definition d_Get (d : ResourceData) (key : string) : string :=
  default "" (rd_attrs d !! key).

Definition d_Set (d : ResourceData) (key value : string)
  : ResourceData * option error :=
  match rd_schema d !! key with
  | Some _ =>
      ({| rd_schema := rd_schema d; rd_id := rd_id d;
          rd_attrs := <[key := value]> (rd_attrs d) |}, None)
  | None => (d, Some (ErrorString ("Invalid address to set: " +:+ key)))
  end.

(** Diagnostics: [diag.FromErr] and [diag.Errorf] each build one error
    diagnostic; the named result [diags] that is never assigned is empty. *)
Inductive Diagnostic : Type :=
| DiagFromErr (err : error)
| DiagErrorf (msg : string).

Definition Diagnostics : Type := list Diagnostic.

Definition diag_FromErr (err : error) : Diagnostics := [DiagFromErr err].
Definition diag_Errorf (msg : string) : Diagnostics := [DiagErrorf msg].

(** The [meta] value handed to a handler: a pointer to the client, or
    anything else. *)
Inductive Meta : Type :=
| MetaClient (client : Client)
| MetaOther.

Definition Handler : Type := ResourceData -> Meta -> Prog (ResourceData * Diagnostics).

Inductive StateContextFunc : Type := ImportStatePassthroughContext.

Record ResourceImporter : Type := { StateContext : StateContextFunc }.

Record Resource : Type := {
  ResourceDescription : string;
  CreateContext : option Handler;
  ReadContext : option Handler;
  UpdateContext : option Handler;
  DeleteContext : option Handler;
  Importer : option ResourceImporter;
  ResourceSchema : gmap string Schema
}.

(** The SDK's planning rule for the attributes that changed: a changed
    attribute whose schema sets [ForceNew] requires a new resource; any
    other change is an update in place. *)
Inductive PlannedAction : Type := ActionNone | ActionUpdate | ActionReplace.

Definition requires_new (r : Resource) (key : string) : bool :=
  match ResourceSchema r !! key with
  | Some s => ForceNew s
  | None => false
  end.

Definition planned_action (r : Resource) (changed : list string) : PlannedAction :=
  if existsb (requires_new r) changed then ActionReplace
  else match changed with
       | [] => ActionNone
       | _ => ActionUpdate
       end.

Section WithEnv.
Context {env : Env}.

Definition resourceDNSRecordCreate : Handler := fun d meta =>
  match meta with
  | MetaOther => Ret (d, diag_Errorf "Could not load client in resource request")
  | MetaClient client =>
      let domain := d_Get d "domain" in
      let ip := d_Get d "ip" in
      record ← new {| Domain := domain; IP := ip |};
      '(_, err) ← CreateDNSRecord client record;
      on_err err (fun e => (d, diag_FromErr e)) $
      Ret (d_SetId d (domain +:+ "_" +:+ ip), [])
  end.

(** The loop of [resourceDNSRecordRead]: [record] ends as the last [r] of
    [records] with [r.IP == id[1]]. *)
Fixpoint resourceDNSRecordRead_loop (records : list ptr) (id : list string)
    (record : ptr) : Prog ptr :=
  match records with
  | [] => Ret record
  | r :: records' =>
      rv ← load r;
      match id !! 1%nat with
      | None => Panic
      | Some id1 =>
          if String.eqb (IP rv) id1
          then resourceDNSRecordRead_loop records' id r
          else resourceDNSRecordRead_loop records' id record
      end
  end.

Definition resourceDNSRecordRead : Handler := fun d meta =>
  match meta with
  | MetaOther => Ret (d, diag_Errorf "Could not load client in resource request")
  | MetaClient client =>
      let id := strings_Split (d_Id d) "_" in
      '(records, err) ← GetDNSRecordList client (d_Id d);
      match err with
      | Some e =>
          if is_NotFoundError e
          then Ret (d_SetId d "", [])
          else Ret (d, diag_FromErr e)
      | None =>
          record ← resourceDNSRecordRead_loop records id None;
          match record with
          | None => Ret (d_SetId d "", [])
          | Some _ =>
              rv ← load record;
              let '(d1, err) := d_Set d "domain" (Domain rv) in
              on_err err (fun e => (d1, diag_FromErr e)) $
              rv ← load record;
              let '(d2, err) := d_Set d1 "ip" (IP rv) in
              on_err err (fun e => (d2, diag_FromErr e)) $
              Ret (d2, [])
          end
      end
  end.

Definition resourceDNSRecordDelete : Handler := fun d meta =>
  match meta with
  | MetaOther => Ret (d, diag_Errorf "Could not load client in resource request")
  | MetaClient client =>
      err ← DeleteDNSRecord client (d_Id d);
      on_err err (fun e => (d, diag_FromErr e)) $
      Ret (d_SetId d "", [])
  end.

Definition resourceDNSRecord : Resource := {|
  ResourceDescription := "Manages a Pi-hole DNS record";
  CreateContext := Some resourceDNSRecordCreate;
  ReadContext := Some resourceDNSRecordRead;
  UpdateContext := None;
  DeleteContext := Some resourceDNSRecordDelete;
  Importer := Some {| StateContext := ImportStatePassthroughContext |};
  ResourceSchema :=
    {[ "domain" := {| Description := "DNS record domain";
                      Type_ := TypeString;
                      Required := true; Optional := false;
                      Computed := false; ForceNew := true |};
       "ip" := {| Description :=
                    "IP address to route traffic to from the DNS record domain";
                  Type_ := TypeString;
                  Required := true; Optional := false;
                  Computed := false; ForceNew := true |} ]}
|}.

End WithEnv.

End provider.

(** ** An instance of the environment

    [strings.ToLower], [%q] and the formatting of [fmt.Errorf] on byte
    strings.  [ToLower] and [Quote] are the library's on ASCII input;
    [Errorf0] follows the scanner of the fmt package ([doPrintf]) for a call
    with a format and no operands. *)

Module GoStd.
Import Go.

Definition byte_in (c : ascii) (lo hi : nat) : bool :=
  let n := nat_of_ascii c in (lo <=? n)%nat && (n <=? hi)%nat.

Definition lower_byte (c : ascii) : ascii :=
  if byte_in c 65 90 then ascii_of_nat (nat_of_ascii c + 32) else c.

Fixpoint ToLower (s : string) : string :=
  match s with
  | EmptyString => EmptyString
  | String c rest => String (lower_byte c) (ToLower rest)
  end.

Definition dquote : ascii := ascii_of_nat 34.
Definition backslash : ascii := ascii_of_nat 92.

Fixpoint Quote_body (s : string) : string :=
  match s with
  | EmptyString => String dquote EmptyString
  | String c rest =>
      if Ascii.eqb c dquote || Ascii.eqb c backslash
      then String backslash (String c (Quote_body rest))
      else String c (Quote_body rest)
  end.

Definition Quote (s : string) : string := String dquote (Quote_body s).

(** *** The format scanner with no operands *)

Definition is_digit (c : ascii) : bool := byte_in c 48 57.

Definition is_flag (c : ascii) : bool :=
  existsb (Ascii.eqb c) ["#"; "0"; "+"; "-"; " "]%char.

Fixpoint skip_flags (s : list ascii) : list ascii :=
  match s with
  | c :: rest => if is_flag c then skip_flags rest else s
  | [] => []
  end.

Definition tooLarge (x : N) : bool := (1000000 <? x)%N.

(** [parsenum]: the digits at the head of [s].  The result is whether a
    number was read and what is left; a number that grows too large gives
    up and swallows the rest. *)
Fixpoint parsenum_loop (s : list ascii) (num : N) (isnum : bool)
  : bool * list ascii :=
  match s with
  | c :: rest =>
      if is_digit c then
        if tooLarge num then (false, [])
        else parsenum_loop rest (num * 10 + (N_of_ascii c - 48))%N true
      else (isnum, s)
  | [] => (isnum, [])
  end.

Definition parsenum (s : list ascii) : bool * list ascii := parsenum_loop s 0%N false.

(** The position of the first closing bracket of [s], counted from 1 as
    [s] is what follows the opening bracket. *)
Fixpoint closing_bracket (s : list ascii) (i : nat) : option nat :=
  match s with
  | c :: rest => if Ascii.eqb c "]" then Some i else closing_bracket rest (S i)
  | [] => None
  end.

(** [parseArgNumber] on [open :: s] where [open] is the opening bracket:
    how many bytes to consume and whether a number was parsed. *)
Definition parseArgNumber (s : list ascii) : nat * bool :=
  if (length s <? 2)%nat then (1%nat, false)
  else match closing_bracket s 1 with
       | None => (1%nat, false)
       | Some i =>
           let '(ok, rest) := parsenum (take (i - 1) s) in
           (S i, ok && (length rest =? 0)%nat)
       end.

(** [argNumber] with no operands: any bracketed index is out of range, so
    the result is what is left, whether an index was found, and whether the
    argument number is still good. *)
Definition argNumber (s : list ascii) (good : bool) : list ascii * bool * bool :=
  match s with
  | c :: rest =>
      if Ascii.eqb c "[" then
        let '(wid, ok) := parseArgNumber rest in
        (drop wid s, ok, false)
      else (s, false, good)
  | [] => (s, false, good)
  end.

Definition starts_with (s : list ascii) (c : ascii) : bool :=
  match s with
  | c' :: _ => Ascii.eqb c' c
  | [] => false
  end.

(** [utf8.DecodeRuneInString] as far as the scanner needs it: the bytes it
    writes back for the verb and how many bytes the verb takes. *)
Definition continuation (s : list ascii) (i lo hi : nat) : bool :=
  match s !! i with
  | Some c => byte_in c lo hi
  | None => false
  end.

Definition RuneError : list ascii :=
  [ascii_of_nat 239; ascii_of_nat 191; ascii_of_nat 189].

Definition decode_verb (s : list ascii) : list ascii * nat :=
  match s with
  | [] => ([], 0%nat)
  | c :: _ =>
      let n := nat_of_ascii c in
      let two lo hi :=
        if continuation s 1 lo hi then (take 2 s, 2%nat) else (RuneError, 1%nat) in
      let three lo hi :=
        if continuation s 1 lo hi && continuation s 2 128 191
        then (take 3 s, 3%nat) else (RuneError, 1%nat) in
      let four lo hi :=
        if continuation s 1 lo hi && continuation s 2 128 191
           && continuation s 3 128 191
        then (take 4 s, 4%nat) else (RuneError, 1%nat) in
      if (n <? 128)%nat then ([c], 1%nat)
      else if byte_in c 194 223 then two 128%nat 191%nat
      else if (n =? 224)%nat then three 160%nat 191%nat
      else if byte_in c 225 236 then three 128%nat 191%nat
      else if (n =? 237)%nat then three 128%nat 159%nat
      else if byte_in c 238 239 then three 128%nat 191%nat
      else if (n =? 240)%nat then four 144%nat 191%nat
      else if byte_in c 241 243 then four 128%nat 191%nat
      else if (n =? 244)%nat then four 128%nat 143%nat
      else (RuneError, 1%nat)
  end.

Definition chars (s : string) : list ascii := list_ascii_of_string s.

(** One directive, from the byte after the percent sign: what is written
    and what is left of the format. *)
Definition directive (s : list ascii) : list ascii * list ascii :=
  let s := skip_flags s in
  let '(s, afterIndex, good) := argNumber s true in
  (* width *)
  let '(out, s, afterIndex, good) :=
    if starts_with s "*"
    then (chars "%!(BADWIDTH)", drop 1 s, false, good)
    else let '(widPresent, s') := parsenum s in
         ([], s', afterIndex, good && negb (afterIndex && widPresent)) in
  (* precision *)
  let '(out, s, afterIndex, good) :=
    if starts_with s "."
    then
      let good := good && negb afterIndex in
      let '(s, afterIndex, good) := argNumber (drop 1 s) good in
      if starts_with s "*"
      then (out ++ chars "%!(BADPREC)", drop 1 s, false, good)
      else (out, (parsenum s).2, afterIndex, good)
    else (out, s, afterIndex, good) in
  let '(s, afterIndex, good) :=
    if afterIndex then (s, afterIndex, good) else argNumber s good in
  match s with
  | [] => (out ++ chars "%!(NOVERB)", [])
  | _ =>
      let '(verb, size) := decode_verb s in
      let written :=
        if starts_with s "%" then chars "%"
        else if good then chars "%!" ++ verb ++ chars "(MISSING)"
        else chars "%!" ++ verb ++ chars "(BADINDEX)" in
      (out ++ written, drop size s)
  end.

(** The scanner.  Every step consumes at least one byte, so the length of
    the format is fuel enough. *)
Fixpoint doPrintf (fuel : nat) (format : list ascii) : list ascii :=
  match fuel, format with
  | S fuel', c :: rest =>
      if Ascii.eqb c "%"
      then let '(out, rest') := directive rest in out ++ doPrintf fuel' rest'
      else c :: doPrintf fuel' rest
  | _, _ => []
  end.

Definition Errorf0 (format : string) : string :=
  string_of_list_ascii (doPrintf (String.length format) (chars format)).

End GoStd.

Definition go_before_1_22 : Go.Env := {|
  Go.loopvar := Go.PerLoop;
  Go.strings_ToLower := GoStd.ToLower;
  Go.fmt_q := GoStd.Quote;
  Go.fmt_Errorf0 := GoStd.Errorf0
|}.

Definition go_1_22 : Go.Env := {|
  Go.loopvar := Go.PerIteration;
  Go.strings_ToLower := GoStd.ToLower;
  Go.fmt_q := GoStd.Quote;
  Go.fmt_Errorf0 := GoStd.Errorf0
|}.


(** ** Sample worlds *)

Module Samples.
Import Go pihole Exec provider.

(** A Pi-hole reached over the session path that answers every request
    without error: the list request with [rows], the add request with
    [created]. *)
Definition session_world (rows : list (list string))
    (created : CreateDNSRecordResponse) : World :=
  fun hist c =>
    match c return Answer c with
    | LocalDNS_List _ => ([], None)
    | LocalDNS_Create _ _ _ => (None, None)
    | LocalDNS_Get _ _ => (None, None)
    | LocalDNS_GetList _ _ => ([], None)
    | LocalDNS_Delete _ _ => None
    | RequestWithSession _ _ _ => (length hist, None)
    | HTTP_Do req => (req, None)
    | Decode_DNSRecordsListResponse _ => ({| Data := rows |}, None)
    | Decode_CreateDNSRecordResponse _ => (created, None)
    | Body_Close _ => tt
    end.

(** The same, except that sending fails from the request numbered [n] on
    (requests are numbered by the interactions before them). *)
Definition failing_world (rows : list (list string)) (n : nat) : World :=
  fun hist c =>
    match c return Answer c with
    | HTTP_Do req =>
        if (n <=? req)%nat then (0%nat, Some (ExternalError 1)) else (req, None)
    | c' => session_world rows {| Success := true; Message := "" |} hist c'
    end.

(** A go-pihole library over a fixed set of records.  [GetList] and [Get]
    compare the domain as given and answer with the sentinel error when
    nothing matches. *)
Definition library_world (records : DNSRecordList) : World :=
  fun hist c =>
    match c return Answer c with
    | LocalDNS_List _ => (records, None)
    | LocalDNS_Create _ domain ip => (Some {| Domain := domain; IP := ip |}, None)
    | LocalDNS_Get _ domain =>
        match List.filter (fun r => String.eqb (Domain r) domain) records with
        | [] => (None, Some (Wrapped domain ErrorLocalDNSNotFound))
        | r :: _ => (Some r, None)
        end
    | LocalDNS_GetList _ domain =>
        match List.filter (fun r => String.eqb (Domain r) domain) records with
        | [] => ([], Some (Wrapped domain ErrorLocalDNSNotFound))
        | rs => (Some <$> rs, None)
        end
    | LocalDNS_Delete _ _ => None
    | c' => session_world [] {| Success := true; Message := "" |} hist c'
    end.

(** A library whose [GetList] answers with the same records whatever the
    domain asked for. *)
Definition lenient_library (records : DNSRecordList) : World :=
  fun hist c =>
    match c return Answer c with
    | LocalDNS_GetList _ _ => (Some <$> records, None)
    | c' => library_world records hist c'
    end.

Definition session_client : Client := {| tokenClient := None |}.
Definition token_client : Client := {| tokenClient := Some 0%nat |}.

Definition sample_rows : list (list string) :=
  [["a.com"; "1.1.1.1"]; ["b.com"; "2.2.2.2"]; ["a.com"; "::1"];
   ["c.com"; "3.3.3.3"]].

Definition sample_records : DNSRecordList :=
  [{| Domain := "a.com"; IP := "1.1.1.1" |};
   {| Domain := "b.com"; IP := "2.2.2.2" |};
   {| Domain := "a.com"; IP := "::1" |};
   {| Domain := "c.com"; IP := "3.3.3.3" |}].

Definition sample_pihole : World :=
  session_world sample_rows {| Success := true; Message := "" |}.

(** The state of one instance of the DNS record resource. *)
Definition sample_data (id domain ip : string) : ResourceData :=
  {| rd_schema := ResourceSchema (resourceDNSRecord (env := go_1_22));
     rd_id := id;
     rd_attrs := {[ "domain" := domain; "ip" := ip ]} |}.

End Samples.

(** ** Vocabulary of the properties *)

Module Spec.
Import Go pihole Exec provider.

(** A row of the list response and the record made from it. *)
Definition row_is (row : list string) (r : DNSRecord) : Prop :=
  row !! 0%nat = Some (Domain r) /\ row !! 1%nat = Some (IP r).

(** The comparison of [GetDNSRecordList]: the record's domain against the
    lowercased domain asked for. *)
Definition matches {env : Env} (domain : string) (r : DNSRecord) : bool :=
  String.eqb (Domain r) (strings_ToLower domain).

Definition points_to (h : Heap) (p : ptr) (r : DNSRecord) : Prop :=
  deref h p = Some r.

(** The requests of the session path. *)
Definition post (data : Values) : string * string * Values :=
  ("POST", customdns_php, data).

Definition get_form : Values := [("action", ["get"])].

Definition add_form (r : DNSRecord) : Values :=
  [("action", ["add"]); ("ip", [IP r]); ("domain", [Domain r])].

Definition delete_form (r : DNSRecord) : Values :=
  [("action", ["delete"]); ("ip", [IP r]); ("domain", [Domain r])].

Definition session_only (tr : list Event) : Prop :=
  Forall (fun ev => is_session_call (ev_call ev) = true) tr.

Definition no_error (ev : Event) : Prop := ev_error ev = None.

(** How a run that returned [err] ended: without an error in any
    interaction, or with [err] as the answer to its last interaction and no
    error before. *)
Definition stops_at_error (err : option error) (tr : list Event) : Prop :=
  match err with
  | None => Forall no_error tr
  | Some e =>
      exists tr0 ev, tr = tr0 ++ [ev] /\ ev_error ev = Some e /\ Forall no_error tr0
  end.

(** The addresses the loop of [GetDNSRecordList] produces when every
    iteration has a variable of its own, the first at address [base]. *)
Fixpoint addrs {env : Env} (base : nat) (lst : DNSRecordList) (domain : string)
  : list ptr :=
  match lst with
  | [] => []
  | r :: lst' =>
      (if matches domain r then [Some base] else []) ++ addrs (S base) lst' domain
  end.

Definition zero_record : DNSRecord := {| Domain := ""; IP := "" |}.

(** The pointers and the heap after the loop of [GetDNSRecordList] run
    from heap [h] over the listing [lst]. *)
Definition found_ptrs {env : Env} (h : Heap) (lst : DNSRecordList) (domain : string)
  : list ptr :=
  match loopvar with
  | PerIteration => addrs (length h) lst domain
  | PerLoop =>
      replicate (length (List.filter (matches domain) lst)) (Some (length h))
  end.

Definition found_heap {env : Env} (h : Heap) (lst : DNSRecordList) : Heap :=
  match loopvar with
  | PerIteration => h ++ lst
  | PerLoop => h ++ [List.last lst zero_record]
  end.

Definition not_found_msg {env : Env} (domain : string) : string :=
  "record " +:+ fmt_q domain +:+ " not found".

(** The addresses given to the records that the library hands over. *)
Fixpoint import_addrs (base : nat) (os : list (option DNSRecord)) : list ptr :=
  match os with
  | [] => []
  | None :: os' => None :: import_addrs base os'
  | Some _ :: os' => Some base :: import_addrs (S base) os'
  end.

(** The five operations of the client and what each is seen to do. *)
Inductive Operation : Type :=
| OpList
| OpCreate (record : ptr)
| OpGet (domain : string)
| OpGetList (domain : string)
| OpDelete (domain : string).

Definition op_trace {env : Env} (w : World) (c : Client) (op : Operation)
    (h : Heap) (hist : list Event) : list Event :=
  match op with
  | OpList => trace (run w (ListDNSRecords c) h hist)
  | OpCreate record => trace (run w (CreateDNSRecord c record) h hist)
  | OpGet domain => trace (run w (GetDNSRecord c domain) h hist)
  | OpGetList domain => trace (run w (GetDNSRecordList c domain) h hist)
  | OpDelete domain => trace (run w (DeleteDNSRecord c domain) h hist)
  end.



(** What the decoding of a create response was answered. *)
Definition decoded_create (ev : Event)
  : option (CreateDNSRecordResponse * option error) :=
  match ev with
  | {| ev_call := Decode_CreateDNSRecordResponse _; ev_answer := a |} => Some a
  | _ => None
  end.

Fixpoint has_percent (s : string) : bool :=
  match s with
  | EmptyString => false
  | String c rest => Ascii.eqb c "%" || has_percent rest
  end.

(** The read handler: the record it selects and what it leaves in the
    resource data. *)
Definition last_with_ip (recs : list DNSRecord) (ip : string) : option DNSRecord :=
  last (List.filter (fun r => String.eqb (IP r) ip) recs).

Definition read_result (d : ResourceData) (selected : option DNSRecord)
  : ResourceData * Diagnostics :=
  match selected with
  | None => (d_SetId d "", [])
  | Some r =>
      let '(d1, err) := d_Set d "domain" (Domain r) in
      match err with
      | Some e => (d1, diag_FromErr e)
      | None =>
          let '(d2, err) := d_Set d1 "ip" (IP r) in
          match err with
          | Some e => (d2, diag_FromErr e)
          | None => (d2, [])
          end
      end
  end.

Fixpoint underscores (s : string) : nat :=
  match s with
  | EmptyString => 0
  | String c rest => (if Ascii.eqb c "_" then 1 else 0) + underscores rest
  end.

(** The substring after the first underscore. *)
Fixpoint after_first_underscore (s : string) : option string :=
  match s with
  | EmptyString => None
  | String c rest =>
      if Ascii.eqb c "_" then Some rest else after_first_underscore rest
  end.

(** The reading of the ID by which the read handler would compare the IP of
    a record against everything after the first underscore, whatever the
    ID. *)
Definition Read_selects_after_first_underscore : Prop :=
  forall (env : Env) (w : World) (c : Client) (d : ResourceData) (h : Heap)
         (hist : list Event) records h' tr recs x,
    run w (GetDNSRecordList c (d_Id d)) h hist = (Returned (records, None), h', tr) ->
    Forall2 (points_to h') records recs ->
    after_first_underscore (d_Id d) = Some x ->
    outcome (run w (resourceDNSRecordRead d (MetaClient c)) h hist) =
    Returned (read_result d (last_with_ip recs x)).

(** A row that [ToDNSRecordList] cannot index. *)
Definition short_row (row : list string) : Prop := length row < 2.

(** The first error among the answers of a run. *)
Definition first_error (tr : list Event) : option error :=
  head (omap ev_error tr).

(** What the decoding of a list response was answered. *)
Definition decoded_list (ev : Event)
  : option (DNSRecordsListResponse * option error) :=
  match ev with
  | {| ev_call := Decode_DNSRecordsListResponse _; ev_answer := a |} => Some a
  | _ => None
  end.

(** The responses that a send returned without error, and the responses
    whose body was closed. *)
Definition opened_response (ev : Event) : option Response :=
  match ev with
  | {| ev_call := HTTP_Do _; ev_answer := (res, None) |} => Some res
  | _ => None
  end.

Definition closed_response (ev : Event) : option Response :=
  match ev_call ev with
  | Body_Close res => Some res
  | _ => None
  end.

Definition opened (tr : list Event) : list Response := omap opened_response tr.
Definition closed (tr : list Event) : list Response := omap closed_response tr.

(** The heap an operation of the client leaves. *)
Definition op_heap {env : Env} (w : World) (c : Client) (op : Operation)
    (h : Heap) (hist : list Event) : Heap :=
  match op with
  | OpList => heap (run w (ListDNSRecords c) h hist)
  | OpCreate record => heap (run w (CreateDNSRecord c record) h hist)
  | OpGet domain => heap (run w (GetDNSRecord c domain) h hist)
  | OpGetList domain => heap (run w (GetDNSRecordList c domain) h hist)
  | OpDelete domain => heap (run w (DeleteDNSRecord c domain) h hist)
  end.

(** The action a form names. *)
Definition action_of (data : Values) : option (list string) :=
  snd <$> head (List.filter (fun kv => String.eqb (fst kv) "action") data).

(** A request of the session path: a POST to customdns.php whose action is
    get, add or delete. *)
Definition customdns_request (rq : string * string * Values) : Prop :=
  rq.1.1 = "POST" /\ rq.1.2 = customdns_php /\
  (action_of rq.2 = Some ["get"] \/ action_of rq.2 = Some ["add"] \/
   action_of rq.2 = Some ["delete"]).

(** What the token path makes of an error of the library. *)
Definition translate_not_found {env : Env} (domain : string) (e : error) : error :=
  if errors_Is_LocalDNSNotFound e
  then NewNotFoundError ("dns record with domain " +:+ fmt_q domain +:+ " not found")
  else e.

(** A run in which every body that was opened is closed, in the order of
    opening, and every request is one to customdns.php. *)
Definition orderly (tr : list Event) : Prop :=
  closed tr = opened tr /\ Forall customdns_request (requests tr).

(** The resource data once the read handler has written [r] back. *)
Definition refreshed (d : ResourceData) (r : DNSRecord) : ResourceData :=
  {| rd_schema := rd_schema d; rd_id := rd_id d;
     rd_attrs := <["ip" := IP r]> (<["domain" := Domain r]> (rd_attrs d)) |}.

(** [GetDNSRecordList] read as never returning an empty list together with
    a nil error, whatever the client. *)
Definition GetDNSRecordList_never_empty : Prop :=
  forall (env : Env) (w : World) (c : Client) (domain : string) (h : Heap)
         (hist : list Event) (ps : list ptr) (err : option error),
    outcome (run w (GetDNSRecordList c domain) h hist) = Returned (ps, err) ->
    err = None -> ps <> [].

End Spec.

(** * Properties *)

Import Go pihole Exec provider Samples Spec.

(** Case analysis on the answers of the world [w], in the order in which
    the run meets them. *)
Ltac answers w :=
  repeat (cbn;
    match goal with
    | |- context [w ?h (Body_Close ?res)] => destruct (w h (Body_Close res))
    | |- context [w ?h ?c] =>
        let a := fresh "a" in
        let e := fresh "e" in
        destruct (w h c) as [a [e|]] eqn:?
    end).

(** ** Runs *)

Section Runs.
Context (w : World).

Lemma run_bind {A B : Type} (p : Prog A) (f : A -> Prog B) h hist :
  run w (bind p f) h hist =
  match run w p h hist with
  | (Returned a, h', tr) =>
      let '(o, h'', tr') := run w (f a) h' (hist ++ tr) in (o, h'', tr ++ tr')
  | (Panicked, h', tr) => (Panicked, h', tr)
  end.
Proof.
  revert h hist.
  induction p as [r| |c k IH|v k IH|a k IH|a v k IH]; intros h hist; cbn.
  - rewrite app_nil_r. by destruct (run w (f r) h hist) as [[o h'] tr].
  - done.
  - rewrite IH. destruct (run w (k (w hist c)) h _) as [[[a|] h'] tr]; cbn; [|done].
    rewrite <- app_assoc. cbn.
    by destruct (run w (f a) h' _) as [[o h''] tr'].
  - apply IH.
  - apply IH.
  - destruct (a ≫= _); apply IH.
Qed.

Lemma run_mbind {A B : Type} (p : Prog A) (f : A -> Prog B) h hist :
  run w (p ≫= f) h hist =
  match run w p h hist with
  | (Returned a, h', tr) =>
      let '(o, h'', tr') := run w (f a) h' (hist ++ tr) in (o, h'', tr ++ tr')
  | (Panicked, h', tr) => (Panicked, h', tr)
  end.
Proof. apply run_bind. Qed.

(** A deferred call runs after the body, whether the body returns or
    panics, and its interactions come last. *)
Lemma run_defer {R : Type} (cleanup : Prog unit) (p : Prog R) h hist :
  run w (defer cleanup p) h hist =
  match run w p h hist with
  | (o, h', tr) =>
      match run w cleanup h' (hist ++ tr) with
      | (Returned _, h'', tr') => (o, h'', tr ++ tr')
      | (Panicked, h'', tr') => (Panicked, h'', tr ++ tr')
      end
  end.
Proof.
  revert h hist.
  induction p as [r| |c k IH|v k IH|a k IH|a v k IH]; intros h hist; cbn.
  - rewrite run_bind, (app_nil_r hist).
    destruct (run w cleanup h hist) as [[[[]|] h'] tr]; cbn; by rewrite ?app_nil_r.
  - rewrite run_bind, (app_nil_r hist).
    destruct (run w cleanup h hist) as [[[[]|] h'] tr]; cbn; by rewrite ?app_nil_r.
  - rewrite IH. destruct (run w (k (w hist c)) h _) as [[o h'] tr]; cbn.
    rewrite <- app_assoc. cbn.
    by destruct (run w cleanup h' _) as [[[[]|] h''] tr'].
  - apply IH.
  - apply IH.
  - destruct (a ≫= _); apply IH.
Qed.

Lemma run_new {R : Type} v (f : ptr -> Prog R) h hist :
  run w (new v ≫= f) h hist = run w (f (Some (length h))) (h ++ [v]) hist.
Proof. reflexivity. Qed.

Lemma run_load_cases {R : Type} p (f : DNSRecord -> Prog R) h hist :
  run w (load p ≫= f) h hist =
  match deref h p with
  | Some v => run w (f v) h hist
  | None => (Panicked, h, [])
  end.
Proof. cbn. unfold deref. by destruct (p ≫= _). Qed.

Lemma run_load {R : Type} p v (f : DNSRecord -> Prog R) h hist :
  deref h p = Some v -> run w (load p ≫= f) h hist = run w (f v) h hist.
Proof. intros Hp. by rewrite run_load_cases, Hp. Qed.


(** The assignment to the loop variable in the body of a range loop. *)
Lemma run_store {R : Type} a v0 v p (f : ptr -> Prog R) h hist :
  h !! a = Some v0 ->
  run w ((store (Some a) v ≫= fun _ => Ret p) ≫= f) h hist =
  run w (f p) (<[a:=v]> h) hist.
Proof. intros Ha. cbn -[lookup insert]. by rewrite Ha. Qed.

Lemma run_import_ptr o h hist :
  run w (import_ptr o) h hist =
  (Returned (match o with Some _ => Some (length h) | None => None end),
   h ++ option_list o, []).
Proof. destruct o; cbn; by rewrite ?app_nil_r. Qed.

Lemma run_import_ptrs os h hist :
  run w (import_ptrs os) h hist =
  (Returned (import_addrs (length h) os), h ++ omap id os, []).
Proof.
  revert h hist. induction os as [|o os IH]; intros h hist; cbn [import_ptrs].
  - cbn. by rewrite app_nil_r.
  - rewrite run_mbind, run_import_ptr, run_mbind, IH.
    destruct o; cbn; rewrite ?length_app, ?Nat.add_1_r, <- ?app_assoc, ?app_nil_r;
      cbn; by rewrite ?Nat.add_0_r.
Qed.

End Runs.

Lemma List_last_cons {A : Type} (x d : A) (l : list A) :
  List.last (x :: l) d = List.last l x.
Proof.
  revert x d. induction l as [|y l IH]; intros x d; [done|].
  change (List.last (x :: y :: l) d) with (List.last (y :: l) d).
  by rewrite !IH.
Qed.

Lemma deref_app h h' p r : deref h p = Some r -> deref (h ++ h') p = Some r.
Proof.
  destruct p as [a|]; [|done]. cbn. intros Ha. by apply lookup_app_l_Some.
Qed.

Lemma deref_new h v : deref (h ++ [v]) (Some (length h)) = Some v.
Proof. cbn. by apply list_lookup_middle. Qed.



(** ** The conversion of the list response *)

Lemma row_to_record_Some row :
  2 <= length row -> exists r, row_to_record row = Some r /\ row_is row r.
Proof.
  destruct row as [|d [|ip row]]; cbn; try lia. intros _.
  by exists {| Domain := d; IP := ip |}.
Qed.

Lemma ToDNSRecordList_loop_spec rows acc :
  Forall (fun row => 2 <= length row) rows ->
  exists out,
    ToDNSRecordList_loop rows acc = Some (acc ++ out) /\ Forall2 row_is rows out.
Proof.
  intros Hrows. revert acc. induction Hrows as [|row rows Hrow _ IH]; intros acc; cbn.
  - exists []. by rewrite app_nil_r.
  - destruct (row_to_record_Some row Hrow) as (r & -> & Hr). cbn.
    destruct (IH (acc ++ [r])) as (out & -> & Hout).
    exists (r :: out). split; [by rewrite <- app_assoc|by constructor].
Qed.

(** C4: when every row of [Data] has at least two entries,
    [ToDNSRecordList] yields a list as long as [Data] whose element [i] has
    [Data[i][0]] as its domain and [Data[i][1]] as its IP. *)
Theorem ToDNSRecordList_spec (rr : DNSRecordsListResponse) :
  Forall (fun row => 2 <= length row) (Data rr) ->
  exists lst, ToDNSRecordList rr = Some lst /\
    length lst = length (Data rr) /\
    forall (i : nat) row, Data rr !! i = Some row ->
      exists d ip, row !! 0%nat = Some d /\ row !! 1%nat = Some ip /\
                   lst !! i = Some {| Domain := d; IP := ip |}.
Proof.
  intros Hrows.
  destruct (ToDNSRecordList_loop_spec (Data rr) [] Hrows) as (out & Hout & Hrel).
  exists out. split; [done|]. split; [symmetry; by eapply Forall2_length|].
  intros i row Hi.
  destruct (Forall2_lookup_l _ _ _ _ _ Hrel Hi) as ([d ip] & Hr & Hd & Hip).
  by exists d, ip.
Qed.

Lemma ToDNSRecordList_spec_witness :
  Forall (fun row => 2 <= length row) sample_rows /\
  exists lst, ToDNSRecordList {| Data := sample_rows |} = Some lst /\
    length lst = length sample_rows /\
    forall (i : nat) row, sample_rows !! i = Some row ->
      exists d ip, row !! 0%nat = Some d /\ row !! 1%nat = Some ip /\
                   lst !! i = Some {| Domain := d; IP := ip |}.
Proof.
  assert (Hrows : Forall (fun row => 2 <= length row) sample_rows)
    by (repeat constructor).
  split; [exact Hrows|].
  exact (ToDNSRecordList_spec {| Data := sample_rows |} Hrows).
Defined.

(** A row that is too short makes the conversion panic. *)
Example ToDNSRecordList_short_row :
  ToDNSRecordList {| Data := [["a.com"; "1.1.1.1"]; ["b.com"]] |} = None.
Proof. reflexivity. Qed.

(** ** The client *)

Section Client.
Context {env : Env} (w : World).


(** The session path of [ListDNSRecords]: one request, the form
    [action=get], and the heap is left alone. *)
Lemma ListDNSRecords_session c h hist :
  tokenClient c = None ->
  exists o tr, run w (ListDNSRecords c) h hist = (o, h, tr) /\
    session_only tr /\ requests tr = [post get_form] /\
    Forall (fun ev => request_of (ev_call ev) = None) (tail tr) /\
    head tr =
      Some {| ev_call := RequestWithSession "POST" customdns_php get_form;
              ev_answer := w hist (RequestWithSession "POST" customdns_php get_form) |}.
Proof.
  intros Hc. unfold ListDNSRecords, get_form. rewrite Hc.
  answers w.
  all: try (destruct (ToDNSRecordList _)); cbn.
  all: eexists _, _; split; [reflexivity|].
  all: split; [by repeat constructor|].
  all: split; [reflexivity|split;[by repeat constructor|reflexivity]].
Qed.

Lemma GetDNSRecordList_loop_per_iteration var lst domain results h hist :
  loopvar = PerIteration ->
  run w (GetDNSRecordList_loop var lst domain results) h hist =
  (Returned (results ++ addrs (length h) lst domain), h ++ lst, []).
Proof.
  intros Hlv. revert results h.
  induction lst as [|elem lst IH]; intros results h.
  - cbn. by rewrite !app_nil_r.
  - cbn [GetDNSRecordList_loop]. rewrite Hlv.
    rewrite run_new. rewrite (run_load _ _ elem) by apply deref_new.
    cbn [addrs].
    change (Domain elem =? strings_ToLower domain)%string with (matches domain elem).
    destruct (matches domain elem);
      rewrite IH, length_app, Nat.add_1_r, <- !app_assoc; done.
Qed.

Lemma GetDNSRecordList_loop_per_loop lst domain results h v hist :
  loopvar = PerLoop ->
  run w (GetDNSRecordList_loop (Some (length h)) lst domain results) (h ++ [v]) hist =
  (Returned (results ++ replicate (length (List.filter (matches domain) lst))
                                  (Some (length h))),
   h ++ [List.last lst v], []).
Proof.
  intros Hlv. revert results v.
  induction lst as [|elem lst IH]; intros results v.
  - cbn. by rewrite app_nil_r.
  - cbn [GetDNSRecordList_loop]. rewrite Hlv.
    rewrite (run_store _ _ v) by (by apply list_lookup_middle).
    rewrite insert_app_r_alt, Nat.sub_diag by done. cbn [insert list_insert].
    rewrite (run_load _ _ elem) by apply deref_new.
    rewrite List_last_cons. cbn [List.filter].
    change (Domain elem =? strings_ToLower domain)%string with (matches domain elem).
    destruct (matches domain elem); rewrite IH; cbn; by rewrite <- ?app_assoc.
Qed.

(** The token path of [GetDNSRecordList] hands on what the library
    answered, with the library's not-found error turned into the
    package's. *)
Lemma GetDNSRecordList_token c t domain h hist :
  tokenClient c = Some t ->
  run w (GetDNSRecordList c domain) h hist =
  let ev := {| ev_call := LocalDNS_GetList t domain;
               ev_answer := w hist (LocalDNS_GetList t domain) |} in
  match w hist (LocalDNS_GetList t domain) with
  | (_, Some e) =>
      (Returned ([], Some (if errors_Is_LocalDNSNotFound e
                           then NewNotFoundError ("dns record with domain " +:+
                                                  fmt_q domain +:+ " not found")
                           else e)), h, [ev])
  | (records, None) =>
      (Returned (import_addrs (length h) records, None), h ++ omap id records, [ev])
  end.
Proof.
  intros Hc. unfold GetDNSRecordList. rewrite Hc.
  answers w.
  - by destruct (errors_Is_LocalDNSNotFound e).
  - by rewrite run_mbind, run_import_ptrs.
Qed.

(** The session path of [GetDNSRecordList], in terms of the listing it
    starts with. *)
Lemma GetDNSRecordList_session c domain h hist :
  tokenClient c = None ->
  run w (GetDNSRecordList c domain) h hist =
  match run w (ListDNSRecords c) h hist with
  | (Returned (lst, None), h1, tr) =>
      (Returned (match found_ptrs h1 lst domain with
                 | [] => ([], Some (NewNotFoundError (not_found_msg domain)))
                 | ps => (ps, None)
                 end), found_heap h1 lst, tr)
  | (Returned (_, Some e), h1, tr) => (Returned ([], Some e), h1, tr)
  | (Panicked, h1, tr) => (Panicked, h1, tr)
  end.
Proof.
  intros Hc. unfold GetDNSRecordList. rewrite Hc, run_mbind.
  destruct (run w (ListDNSRecords c) h hist) as [[[[lst [e|]]|] h1] tr]; cbn [on_err].
  - cbn. by rewrite app_nil_r.
  - unfold found_ptrs, found_heap. destruct loopvar eqn:Hlv.
    + rewrite run_new, run_mbind, GetDNSRecordList_loop_per_loop by done.
      cbn [app]. destruct (replicate _ _); cbn; by rewrite app_nil_r.
    + change (run w (Ret None ≫= ?f) ?a ?b) with (run w (f None) a b).
      cbn beta. rewrite run_mbind, GetDNSRecordList_loop_per_iteration by done.
      cbn [app]. destruct (addrs _ _ _); cbn; by rewrite app_nil_r.
  - done.
Qed.

Lemma addrs_points_to lst domain h rest :
  Forall2 (points_to (h ++ lst ++ rest)) (addrs (length h) lst domain)
          (List.filter (matches domain) lst).
Proof.
  revert h.
  induction lst as [|elem lst IH]; intros h; cbn [addrs List.filter]; [constructor|].
  specialize (IH (h ++ [elem])).
  rewrite length_app, Nat.add_1_r, <- app_assoc in IH.
  destruct (matches domain elem); [|exact IH].
  constructor; [|exact IH].
  unfold points_to. cbn. by apply list_lookup_middle.
Qed.

Lemma found_ptrs_length h lst domain :
  length (found_ptrs h lst domain) = length (List.filter (matches domain) lst).
Proof.
  unfold found_ptrs. destruct loopvar.
  - apply length_replicate.
  - pose proof (addrs_points_to lst domain h []) as HF.
    by apply Forall2_length in HF.
Qed.

Lemma found_ptrs_valid h lst domain :
  exists recs, Forall2 (points_to (found_heap h lst)) (found_ptrs h lst domain) recs.
Proof.
  unfold found_ptrs, found_heap. destruct loopvar.
  - exists (replicate (length (List.filter (matches domain) lst))
                      (List.last lst zero_record)).
    apply Forall2_replicate. apply deref_new.
  - exists (List.filter (matches domain) lst).
    pose proof (addrs_points_to lst domain h []) as HF. by rewrite app_nil_r in HF.
Qed.

(** Per-iteration variables: the result points to the matching records, in
    the order of the listing. *)
Lemma GetDNSRecordList_session_per_iteration c domain h hist lst h1 tr :
  loopvar = PerIteration ->
  tokenClient c = None ->
  run w (ListDNSRecords c) h hist = (Returned (lst, None), h1, tr) ->
  exists ps h2,
    run w (GetDNSRecordList c domain) h hist =
      (Returned (match List.filter (matches domain) lst with
                 | [] => ([], Some (NewNotFoundError (not_found_msg domain)))
                 | _ => (ps, None)
                 end), h2, tr) /\
    Forall2 (points_to h2) ps (List.filter (matches domain) lst).
Proof.
  intros Hlv Hc Hlist.
  rewrite GetDNSRecordList_session, Hlist by done.
  unfold found_ptrs, found_heap. rewrite Hlv.
  pose proof (addrs_points_to lst domain h1 []) as HF. rewrite app_nil_r in HF.
  exists (addrs (length h1) lst domain), (h1 ++ lst). split; [|done].
  by destruct HF.
Qed.

(** X8: with one variable for the whole loop every pointer of the result is
    the address of that variable, which holds the last record of the
    listing. *)
Lemma GetDNSRecordList_session_per_loop c domain h hist lst h1 tr :
  loopvar = PerLoop ->
  tokenClient c = None ->
  run w (ListDNSRecords c) h hist = (Returned (lst, None), h1, tr) ->
  exists ps h2,
    run w (GetDNSRecordList c domain) h hist =
      (Returned (match List.filter (matches domain) lst with
                 | [] => ([], Some (NewNotFoundError (not_found_msg domain)))
                 | _ => (ps, None)
                 end), h2, tr) /\
    length ps = length (List.filter (matches domain) lst) /\
    Forall (fun p => points_to h2 p (List.last lst zero_record)) ps.
Proof.
  intros Hlv Hc Hlist.
  rewrite GetDNSRecordList_session, Hlist by done.
  unfold found_ptrs, found_heap. rewrite Hlv.
  eexists _, _. split; [|split; [apply length_replicate|]].
  - by destruct (List.filter _ _).
  - apply Forall_replicate. apply deref_new.
Qed.


Lemma CreateDNSRecord_calls c record r h hist :
  deref h record = Some r ->
  let tr := trace (run w (CreateDNSRecord c record) h hist) in
  match tokenClient c with
  | Some t => ev_call <$> tr = [LocalDNS_Create t (Domain r) (IP r)]
  | None => session_only tr /\ requests tr = [post (add_form r)] /\
            head (ev_call <$> tr) =
              Some (RequestWithSession "POST" customdns_php (add_form r))
  end.
Proof.
  intros Hr. unfold CreateDNSRecord. destruct (tokenClient c) as [t|].
  - rewrite (run_load _ _ r) by done. answers w.
    all: rewrite run_mbind, run_import_ptr; reflexivity.
  - rewrite (run_load _ _ r) by done. answers w.
    all: try destruct (Success _); cbn.
    all: by repeat constructor.
Qed.


(** X10: the session path of [CreateDNSRecord] by what the decoding of the
    response was answered: nothing (the request or its sending failed, and
    that error is returned), an error, or a response; the heap is left
    alone and a success returns the pointer passed in. *)
Lemma CreateDNSRecord_session_result c record r h hist :
  tokenClient c = None ->
  deref h record = Some r ->
  exists o tr,
    run w (CreateDNSRecord c record) h hist = (o, h, tr) /\
    match omap decoded_create tr with
    | [] => exists e, o = Returned (None, Some e) /\ stops_at_error (Some e) tr
    | [(_, Some e)] => o = Returned (None, Some e)
    | [(created, None)] =>
        o = Returned (if Success created then (record, None)
                      else (None, Some (ErrorString (fmt_Errorf0 (Message created)))))
    | _ => False
    end.
Proof.
  intros Hc Hr. unfold CreateDNSRecord. rewrite Hc, (run_load _ _ r) by done.
  answers w.
  all: try destruct (Success _) eqn:Hok; cbn.
  all: eexists _, _; split; [reflexivity|]; cbn; rewrite ?Hok; try done.
  - exists e. split; [done|]. eexists [], _. by repeat split.
  - exists e. split; [done|]. eexists [_], _. split; [reflexivity|].
    by repeat constructor.
Qed.

Lemma DeleteDNSRecord_one_run record r h hist :
  points_to h record r ->
  exists err tr,
    run w (DeleteDNSRecord_one record) h hist = (Returned err, h, tr) /\
    session_only tr /\ requests tr = [post (delete_form r)] /\
    stops_at_error err tr.
Proof.
  intros Hp. unfold DeleteDNSRecord_one. rewrite (run_load _ _ r) by done.
  answers w.
  all: eexists _, _; split; [reflexivity|].
  all: split; [by repeat constructor|split; [reflexivity|]].
  - exists [], {| ev_call := RequestWithSession "POST" customdns_php (delete_form r);
                  ev_answer := (a, Some e) |}. by repeat split.
  - eexists [_], {| ev_call := HTTP_Do a; ev_answer := (a0, Some e) |}.
    split; [reflexivity|]. by repeat constructor.
  - by repeat constructor.
Qed.

(** The loop of [DeleteDNSRecord]: one request per record, in order, until
    the first interaction that is answered with an error. *)
Lemma DeleteDNSRecord_loop_run records recs h hist :
  Forall2 (points_to h) records recs ->
  exists err tr n,
    run w (DeleteDNSRecord_loop records) h hist = (Returned err, h, tr) /\
    session_only tr /\
    requests tr = (fun r => post (delete_form r)) <$> take n recs /\
    n <= length recs /\
    (err = None -> n = length recs) /\
    stops_at_error err tr.
Proof.
  intros HF. revert hist.
  induction HF as [|record r records recs Hp _ IH]; intros hist.
  - exists None, [], 0. cbn. repeat split; try done; constructor.
  - cbn [DeleteDNSRecord_loop]. rewrite run_mbind.
    destruct (DeleteDNSRecord_one_run record r h hist Hp)
      as (err & tr & -> & Hs & Hr & He).
    destruct err as [e|]; cbn [on_err].
    + exists (Some e), tr, 1. cbn. rewrite app_nil_r.
      split; [done|]. split; [done|]. split; [by rewrite take_0|].
      split; [lia|]. by split.
    + destruct (IH (hist ++ tr))
        as (err' & tr' & n & -> & Hs' & Hr' & Hn & Hall & He').
      exists err', (tr ++ tr'), (S n). split; [done|].
      split; [by apply Forall_app|].
      split; [unfold requests in *; by rewrite omap_app, Hr, Hr'|].
      split; [cbn; lia|]. split; [intros ->; cbn; by rewrite Hall|].
      destruct err' as [e'|]; cbn in *.
      * destruct He' as (tr0 & ev & -> & Hev & Hno).
        exists (tr ++ tr0), ev. rewrite app_assoc. split; [done|]. split; [done|].
        by apply Forall_app.
      * by apply Forall_app.
Qed.

(** X12: with per-iteration variables the delete requests are those of the
    matching records, in order, up to the first one that fails. *)
Lemma DeleteDNSRecord_session_per_iteration c domain h hist lst h1 tr1 :
  loopvar = PerIteration ->
  tokenClient c = None ->
  run w (ListDNSRecords c) h hist = (Returned (lst, None), h1, tr1) ->
  List.filter (matches domain) lst <> [] ->
  exists err h2 tr2 n,
    run w (DeleteDNSRecord c domain) h hist = (Returned err, h2, tr1 ++ tr2) /\
    requests (tr1 ++ tr2) =
      post get_form ::
      ((fun r => post (delete_form r)) <$> take n (List.filter (matches domain) lst)) /\
    n <= length (List.filter (matches domain) lst) /\
    (err = None -> n = length (List.filter (matches domain) lst)) /\
    stops_at_error err tr2.
Proof.
  intros Hlv Hc Hlist Hsome.
  destruct (GetDNSRecordList_session_per_iteration c domain h hist lst h1 tr1
              Hlv Hc Hlist) as (ps & h2 & Hrun & HF).
  unfold DeleteDNSRecord. rewrite Hc, run_mbind, Hrun.
  destruct (List.filter (matches domain) lst) as [|m ms] eqn:Hms; [done|].
  cbn [on_err].
  destruct (DeleteDNSRecord_loop_run ps (m :: ms) h2 (hist ++ tr1) HF)
    as (err & tr2 & n & -> & _ & Hr & Hn & Hall & He).
  exists err, h2, tr2, n. split; [done|].
  split; [|done].
  destruct (ListDNSRecords_session c h hist Hc) as (o & tr' & Hrun' & _ & Hr' & _).
  assert (tr' = tr1) as -> by congruence.
  unfold requests in *. by rewrite omap_app, Hr', Hr.
Qed.

End Client.

(** ** Token path or session path *)


(** The two paths of a delete, on the sample worlds. *)
Example DeleteDNSRecord_token_path :
  ev_call <$> trace (run (library_world sample_records)
                       (DeleteDNSRecord (env := go_1_22) token_client "a.com") [] []) =
  [LocalDNS_Delete 0%nat "a.com"].
Proof. reflexivity. Qed.

Example DeleteDNSRecord_session_path :
  requests (trace (run sample_pihole
                     (DeleteDNSRecord (env := go_1_22) session_client "A.com") [] [])) =
  [post get_form;
   post (delete_form {| Domain := "a.com"; IP := "1.1.1.1" |});
   post (delete_form {| Domain := "a.com"; IP := "::1" |})].
Proof. reflexivity. Qed.

(** A failure stops the deletions: the second delete request is built but
    its sending fails, and nothing follows. *)
Example DeleteDNSRecord_stops :
  let res := run (failing_world sample_rows 5)
               (DeleteDNSRecord (env := go_1_22) session_client "a.com") [] [] in
  outcome res = Returned (Some (ExternalError 1)) /\
  ev_call <$> trace res =
  [RequestWithSession "POST" customdns_php get_form; HTTP_Do 0%nat;
   Decode_DNSRecordsListResponse 0%nat; Body_Close 0%nat;
   RequestWithSession "POST" customdns_php
     (delete_form {| Domain := "a.com"; IP := "1.1.1.1" |});
   HTTP_Do 4%nat; Body_Close 4%nat;
   RequestWithSession "POST" customdns_php
     (delete_form {| Domain := "a.com"; IP := "::1" |});
   HTTP_Do 7%nat].
Proof. split; reflexivity. Qed.

(** ** Looking records up *)

(** With a variable per iteration the lookup on the sample listing yields
    the two records of the domain, in the order of the listing. *)
Example GetDNSRecordList_per_iteration_sample :
  let res := run sample_pihole
               (GetDNSRecordList (env := go_1_22) session_client "A.com") [] [] in
  exists ps, outcome res = Returned (ps, None) /\
    deref (heap res) <$> ps =
      [Some {| Domain := "a.com"; IP := "1.1.1.1" |};
       Some {| Domain := "a.com"; IP := "::1" |}].
Proof. eexists. split; reflexivity. Qed.

(** C2, at a listing of four records of which the first and the third have
    the domain asked for, under the loop variable rule of the language
    before 1.22: the result has two pointers, both to the one loop variable,
    which holds the last record of the listing and not a matching one. *)
Theorem GetDNSRecordList_aliases_loop_variable :
  let res := run sample_pihole
               (GetDNSRecordList (env := go_before_1_22) session_client "a.com") [] [] in
  List.filter (matches (env := go_before_1_22) "a.com") sample_records =
    [{| Domain := "a.com"; IP := "1.1.1.1" |}; {| Domain := "a.com"; IP := "::1" |}] /\
  exists ps, outcome res = Returned (ps, None) /\
    deref (heap res) <$> ps =
      [Some {| Domain := "c.com"; IP := "3.3.3.3" |};
       Some {| Domain := "c.com"; IP := "3.3.3.3" |}].
Proof. split; [reflexivity|]. eexists. split; reflexivity. Qed.

(** C5, at the same listing and under the same rule: the two delete
    requests carry the IP and the domain of the last record of the listing,
    not those of the two matching records. *)
Theorem DeleteDNSRecord_deletes_loop_variable :
  requests (trace (run sample_pihole
                     (DeleteDNSRecord (env := go_before_1_22) session_client "a.com")
                     [] [])) =
  [post get_form;
   post (delete_form {| Domain := "c.com"; IP := "3.3.3.3" |});
   post (delete_form {| Domain := "c.com"; IP := "3.3.3.3" |})].
Proof. reflexivity. Qed.

Section Lookup.
Context {env : Env} (w : World).

(** C9, amended: on the session path [GetDNSRecordList] never returns an
    empty list together with a nil error, so [list[0]] in [GetDNSRecord] is
    in bounds: [GetDNSRecord] returns the first pointer of the list, hands
    on the error, and panics only where [GetDNSRecordList] did.  The list
    comes from a listing that succeeded, and with a variable per iteration
    its pointers designate the records of that listing with the lowercased
    domain, in order, so that the pointer returned designates the first of
    them. *)
Theorem GetDNSRecord_first_of_list (c : Client) (domain : string) (h : Heap)
    (hist : list Event) :
  tokenClient c = None ->
  match run w (GetDNSRecordList c domain) h hist with
  | (Returned (ps, None), h', tr) =>
      exists first rest lst, ps = first :: rest /\
        run w (GetDNSRecord c domain) h hist = (Returned (first, None), h', tr) /\
        outcome (run w (ListDNSRecords c) h hist) = Returned (lst, None) /\
        (loopvar = PerIteration ->
         Forall2 (points_to h') ps (List.filter (matches domain) lst) /\
         deref h' first = head (List.filter (matches domain) lst))
  | (Returned (_, Some e), h', tr) =>
      run w (GetDNSRecord c domain) h hist = (Returned (None, Some e), h', tr)
  | (Panicked, h', tr) =>
      run w (GetDNSRecord c domain) h hist = (Panicked, h', tr)
  end.
Proof.
  intros Hc. unfold GetDNSRecord.
  rewrite Hc, run_mbind, GetDNSRecordList_session by done.
  destruct (run w (ListDNSRecords c) h hist) as [[[[lst [e|]]|] h1] tr];
    cbn [on_err]; try (cbn; by rewrite ?app_nil_r).
  destruct (found_ptrs h1 lst domain) as [|first rest] eqn:Hps;
    [cbn; by rewrite app_nil_r|].
  exists first, rest, lst. split; [done|].
  split; [cbn; by rewrite app_nil_r|]. split; [done|].
  intros Hlv. unfold found_ptrs, found_heap in *. rewrite Hlv in *.
  pose proof (addrs_points_to lst domain h1 []) as HF.
  rewrite app_nil_r, Hps in HF. split; [done|].
  by inversion HF.
Qed.

(** C10: on the session path, when no record of the listing has the
    lowercased domain, [DeleteDNSRecord] returns the not-found error and
    its only request is the one of the listing. *)
Theorem DeleteDNSRecord_not_found (c : Client) (domain : string) (h : Heap)
    (hist : list Event) (lst : DNSRecordList) (h1 : Heap) (tr : list Event) :
  tokenClient c = None ->
  run w (ListDNSRecords c) h hist = (Returned (lst, None), h1, tr) ->
  List.filter (matches domain) lst = [] ->
  exists h2,
    run w (DeleteDNSRecord c domain) h hist =
      (Returned (Some (NewNotFoundError (not_found_msg domain))), h2, tr) /\
    requests tr = [post get_form].
Proof.
  intros Hc Hlist Hnone.
  unfold DeleteDNSRecord.
  rewrite Hc, run_mbind, GetDNSRecordList_session, Hlist by done.
  pose proof (found_ptrs_length h1 lst domain) as Hlen. rewrite Hnone in Hlen.
  destruct (found_ptrs h1 lst domain); [|done]. cbn. rewrite app_nil_r.
  eexists. split; [done|].
  destruct (ListDNSRecords_session w c h hist Hc) as (o & tr' & Hrun & _ & Hr & _).
  congruence.
Qed.

End Lookup.

Lemma GetDNSRecord_first_of_list_witness :
  tokenClient session_client = None /\
  exists first rest lst,
    [Some 0%nat; Some 2%nat] = first :: rest /\
    run sample_pihole (GetDNSRecord (env := go_1_22) session_client "a.com") [] [] =
    (Returned (first, None), sample_records,
     trace (run sample_pihole (ListDNSRecords session_client) [] [])) /\
    outcome (run sample_pihole (ListDNSRecords session_client) [] []) =
    Returned (lst, None) /\
    (loopvar (Env := go_1_22) = PerIteration ->
     Forall2 (points_to sample_records) [Some 0%nat; Some 2%nat]
       (List.filter (matches (env := go_1_22) "a.com") lst) /\
     deref sample_records first =
     head (List.filter (matches (env := go_1_22) "a.com") lst)).
Proof.
  split; [reflexivity|].
  exact (GetDNSRecord_first_of_list (env := go_1_22) sample_pihole session_client
           "a.com" [] [] eq_refl).
Defined.

(** C9 as worded fails on the token path: what the library answers is
    handed on, an empty list with a nil error included. *)
Lemma GetDNSRecordList_never_empty_fails : ~ GetDNSRecordList_never_empty.
Proof.
  intros Hclaim.
  apply (Hclaim go_1_22 (lenient_library []) token_client "a.com" [] [] [] None);
    reflexivity.
Qed.

Lemma DeleteDNSRecord_not_found_witness :
  exists h2,
    run sample_pihole (DeleteDNSRecord (env := go_1_22) session_client "d.com") [] [] =
      (Returned (Some (NewNotFoundError (not_found_msg (env := go_1_22) "d.com"))), h2,
       trace (run sample_pihole (ListDNSRecords session_client) [] [])) /\
    requests (trace (run sample_pihole (ListDNSRecords session_client) [] [])) =
      [post get_form].
Proof.
  exact (DeleteDNSRecord_not_found (env := go_1_22) sample_pihole session_client
           "d.com" [] [] sample_records []
           (trace (run sample_pihole (ListDNSRecords session_client) [] []))
           eq_refl eq_refl eq_refl).
Defined.

(** On the token path the result of [GetDNSRecordList] is as long as the
    list the library answered with: whether it can be empty with a nil
    error is up to the library. *)
Lemma GetDNSRecordList_token_length {env : Env} (w : World) c t domain h hist :
  tokenClient c = Some t ->
  forall records,
    w hist (LocalDNS_GetList t domain) = (records, None) ->
    exists ps h' tr,
      run w (GetDNSRecordList c domain) h hist = (Returned (ps, None), h', tr) /\
      length ps = length records.
Proof.
  intros Hc records Hw. rewrite (GetDNSRecordList_token w c t) by done.
  rewrite Hw. cbn. eexists _, _, _. split; [reflexivity|].
  clear Hw. generalize (length h).
  induction records as [|[r|] records IH]; intros n; cbn; by rewrite ?IH.
Qed.

(** ** Creating a record *)

Lemma doPrintf_plain (format : list ascii) (fuel : nat) :
  length format <= fuel ->
  Forall (fun c => Ascii.eqb c "%" = false) format ->
  GoStd.doPrintf fuel format = format.
Proof.
  intros Hfuel Hplain. revert fuel Hfuel.
  induction Hplain as [|c format Hc _ IH]; intros fuel Hfuel.
  - by destruct fuel.
  - destruct fuel as [|fuel]; cbn in Hfuel; [lia|].
    cbn. rewrite Hc, IH by lia. done.
Qed.

(** A format without a percent sign is the text of the error. *)
Lemma Errorf0_plain (format : string) :
  has_percent format = false -> GoStd.Errorf0 format = format.
Proof.
  intros Hplain. unfold GoStd.Errorf0, GoStd.chars.
  rewrite doPrintf_plain.
  - apply string_of_list_ascii_of_string.
  - clear Hplain. induction format; cbn; lia.
  - induction format as [|c format IH]; cbn in *; [constructor|].
    apply orb_false_iff in Hplain as [Hc Hrest]. constructor; auto.
Qed.

(** C8, at a response whose message has a percent sign: the message goes
    to [fmt.Errorf] as the format, and the text of the error is the
    formatted message, not the message. *)
Theorem CreateDNSRecord_formats_message :
  outcome (run (session_world [] {| Success := false;
                                    Message := "100% of quota used" |})
             (CreateDNSRecord (env := go_1_22) session_client (Some 0%nat))
             [{| Domain := "x.com"; IP := "9.9.9.9" |}] []) =
  Returned (None, Some (ErrorString "100%!o(MISSING)f quota used")).
Proof. reflexivity. Qed.

(** A message without a percent sign is returned as it is, and a success
    returns the pointer that was passed, the record untouched. *)
Example CreateDNSRecord_plain_message :
  outcome (run (session_world [] {| Success := false;
                                    Message := "This domain already exists" |})
             (CreateDNSRecord (env := go_1_22) session_client (Some 0%nat))
             [{| Domain := "x.com"; IP := "9.9.9.9" |}] []) =
  Returned (None, Some (ErrorString "This domain already exists")).
Proof. reflexivity. Qed.

Example CreateDNSRecord_success :
  let h := [{| Domain := "x.com"; IP := "9.9.9.9" |}] in
  let res := run sample_pihole
               (CreateDNSRecord (env := go_1_22) session_client (Some 0%nat)) h [] in
  outcome res = Returned (Some 0%nat, None) /\ heap res = h /\
  requests (trace res) = [post (add_form {| Domain := "x.com"; IP := "9.9.9.9" |})].
Proof. repeat split; reflexivity. Qed.

(** ** The resource *)

(** C6: the resource has the create, read and delete handlers and no update
    handler; its schema has the attributes domain and ip, both required and
    both forcing a new resource, so a change that touches either of them is
    planned as a replacement. *)
Theorem resourceDNSRecord_lifecycle {env : Env} :
  let r := resourceDNSRecord in
  CreateContext r = Some resourceDNSRecordCreate /\
  ReadContext r = Some resourceDNSRecordRead /\
  DeleteContext r = Some resourceDNSRecordDelete /\
  UpdateContext r = None /\
  dom (ResourceSchema r) = ({[ "domain"; "ip" ]} : gset string) /\
  map_Forall (fun _ s => Required s = true /\ ForceNew s = true) (ResourceSchema r) /\
  forall before after,
    planned_action r (before ++ "domain" :: after) = ActionReplace /\
    planned_action r (before ++ "ip" :: after) = ActionReplace.
Proof.
  cbv zeta. do 5 (split; [reflexivity|]). split.
  - intros key s Hs. cbn [resourceDNSRecord ResourceSchema] in Hs.
    apply lookup_insert_Some in Hs as [[<- <-]|[_ Hs]]; [done|].
    by apply lookup_singleton_Some in Hs as [<- <-].
  - intros before after. unfold planned_action.
    rewrite !existsb_app. cbn. by rewrite !orb_true_r.
Qed.

Section Handlers.
Context {env : Env} (w : World).

(** C7: the create handler makes a record of the attributes domain and ip
    and passes it to [CreateDNSRecord]: these two values are what the
    library call or the add request carries.  On a nil error the ID becomes
    domain_ip and there is no diagnostic; on an error the result is the
    diagnostic of that error and the resource data is as it was. *)
Theorem resourceDNSRecordCreate_spec (c : Client) (d : ResourceData) (h : Heap)
    (hist : list Event) :
  let domain := d_Get d "domain" in
  let ip := d_Get d "ip" in
  let r := {| Domain := domain; IP := ip |} in
  let res := run w (resourceDNSRecordCreate d (MetaClient c)) h hist in
  match tokenClient c with
  | Some t => ev_call <$> trace res = [LocalDNS_Create t domain ip]
  | None => requests (trace res) = [post (add_form r)]
  end /\
  res = match run w (CreateDNSRecord c (Some (length h))) (h ++ [r]) hist with
        | (Returned (_, None), h', tr) =>
            (Returned (d_SetId d (domain +:+ "_" +:+ ip), []), h', tr)
        | (Returned (_, Some e), h', tr) => (Returned (d, diag_FromErr e), h', tr)
        | (Panicked, h', tr) => (Panicked, h', tr)
        end.
Proof.
  intros domain ip r res.
  assert (Hres : res =
    match run w (CreateDNSRecord c (Some (length h))) (h ++ [r]) hist with
    | (Returned (_, None), h', tr) =>
        (Returned (d_SetId d (domain +:+ "_" +:+ ip), []), h', tr)
    | (Returned (_, Some e), h', tr) => (Returned (d, diag_FromErr e), h', tr)
    | (Panicked, h', tr) => (Panicked, h', tr)
    end).
  { subst res. unfold resourceDNSRecordCreate. rewrite run_new, run_mbind.
    fold domain ip r.
    destruct (run w (CreateDNSRecord c (Some (length h))) (h ++ [r]) hist)
      as [[[[p [e|]]|] h'] tr]; cbn; by rewrite ?app_nil_r. }
  split; [|exact Hres].
  pose proof (CreateDNSRecord_calls w c (Some (length h)) r (h ++ [r]) hist
                (deref_new h r)) as Hcalls.
  cbv zeta in Hcalls. rewrite Hres.
  destruct (run w (CreateDNSRecord c (Some (length h))) (h ++ [r]) hist)
    as [[[[p [e|]]|] h'] tr]; cbn in *.
  all: destruct (tokenClient c); [exact Hcalls|by destruct Hcalls as (_ & ? & _)].
Qed.

(** The loop of the read handler never interacts and leaves the heap
    alone. *)
Lemma resourceDNSRecordRead_loop_silent records id record h hist :
  exists o, run w (resourceDNSRecordRead_loop records id record) h hist = (o, h, []).
Proof.
  revert record. induction records as [|r records IH]; intros record.
  - by eexists.
  - cbn [resourceDNSRecordRead_loop]. rewrite run_load_cases.
    destruct (deref h r) as [rv|]; [|by eexists].
    destruct (id !! 1%nat) as [id1|]; [|by eexists].
    destruct (String.eqb (IP rv) id1); apply IH.
Qed.

Lemma resourceDNSRecordRead_loop_run records recs id id1 record h hist :
  Forall2 (points_to h) records recs ->
  id !! 1%nat = Some id1 ->
  exists p,
    run w (resourceDNSRecordRead_loop records id record) h hist = (Returned p, h, []) /\
    match last_with_ip recs id1 with
    | Some r => points_to h p r
    | None => p = record
    end.
Proof.
  intros HF Hid. revert record.
  induction HF as [|r rv records recs Hp _ IH]; intros record.
  - by exists record.
  - cbn [resourceDNSRecordRead_loop]. rewrite (run_load w _ rv) by done. rewrite Hid.
    unfold last_with_ip in *. cbn [List.filter].
    destruct (String.eqb (IP rv) id1).
    + destruct (IH r) as (p & -> & Hp'). exists p. split; [done|].
      rewrite last_cons. destruct (last _); [done|]. by subst.
    + apply IH.
Qed.

(** The read handler by the piece [id[1]] of the ID split at underscores. *)
Lemma resourceDNSRecordRead_run (c : Client) (d : ResourceData) (h : Heap)
    (hist : list Event) :
  match run w (GetDNSRecordList c (d_Id d)) h hist with
  | (Returned (records, None), h', tr) =>
      forall recs id1,
        Forall2 (points_to h') records recs ->
        strings_Split (d_Id d) "_" !! 1%nat = Some id1 ->
        run w (resourceDNSRecordRead d (MetaClient c)) h hist =
        (Returned (read_result d (last_with_ip recs id1)), h', tr)
  | (Returned (_, Some e), h', tr) =>
      run w (resourceDNSRecordRead d (MetaClient c)) h hist =
      (Returned (if is_NotFoundError e then (d_SetId d "", []) else (d, diag_FromErr e)),
       h', tr)
  | (Panicked, h', tr) =>
      run w (resourceDNSRecordRead d (MetaClient c)) h hist = (Panicked, h', tr)
  end.
Proof.
  unfold resourceDNSRecordRead. rewrite run_mbind.
  destruct (run w (GetDNSRecordList c (d_Id d)) h hist) as [[[[records [e|]]|] h'] tr].
  - destruct (is_NotFoundError e); cbn; by rewrite app_nil_r.
  - intros recs id1 HF Hid. rewrite run_mbind.
    destruct (resourceDNSRecordRead_loop_run records recs _ id1 None h' (hist ++ tr)
                HF Hid) as (p & -> & Hp).
    destruct (last_with_ip recs id1) as [r|]; cbn [read_result].
    + destruct p as [a|]; [|done].
      rewrite (run_load w _ r) by done.
      destruct (d_Set d "domain" (Domain r)) as [d1 [e|]]; cbn [on_err].
      * cbn. by rewrite !app_nil_r.
      * rewrite (run_load w _ r) by done.
        destruct (d_Set d1 "ip" (IP r)) as [d2 [e|]]; cbn; by rewrite !app_nil_r.
    + subst p. cbn. by rewrite !app_nil_r.
  - done.
Qed.

(** The interactions of the read handler are those of [GetDNSRecordList]
    called with the whole ID. *)
Lemma resourceDNSRecordRead_trace (c : Client) (d : ResourceData) (h : Heap)
    (hist : list Event) :
  trace (run w (resourceDNSRecordRead d (MetaClient c)) h hist) =
  trace (run w (GetDNSRecordList c (d_Id d)) h hist).
Proof.
  unfold resourceDNSRecordRead. rewrite run_mbind.
  destruct (run w (GetDNSRecordList c (d_Id d)) h hist) as [[[[records [e|]]|] h'] tr].
  - destruct (is_NotFoundError e); cbn; by rewrite app_nil_r.
  - rewrite run_mbind.
    destruct (resourceDNSRecordRead_loop_silent records
                (strings_Split (d_Id d) "_") None h' (hist ++ tr)) as (o & ->).
    destruct o as [[a|]|]; cbn [trace snd]; rewrite ?app_nil_r; try done.
    + rewrite run_load_cases. destruct (deref h' (Some a)) as [r|]; [|by rewrite app_nil_r].
      destruct (d_Set d "domain" (Domain r)) as [d1 [e|]]; cbn [on_err].
      * cbn. by rewrite !app_nil_r.
      * rewrite run_load_cases. destruct (deref h' (Some a)) as [r'|]; [|by rewrite app_nil_r].
        destruct (d_Set d1 "ip" (IP r')) as [d2 [e|]]; cbn; by rewrite !app_nil_r.
    + cbn. by rewrite !app_nil_r.
  - done.
Qed.

End Handlers.

Lemma strings_Split_cons (s : string) (sep : ascii) :
  exists piece pieces, strings_Split s sep = piece :: pieces.
Proof.
  induction s as [|c s (piece & pieces & IH)]; cbn; [by eexists _, _|].
  destruct (Ascii.eqb c sep); [by eexists _, _|]. rewrite IH. by eexists _, _.
Qed.

Lemma strings_Split_no_sep (s : string) :
  underscores s = 0 -> strings_Split s "_" = [s].
Proof.
  induction s as [|c s IH]; cbn; [done|].
  destruct (Ascii.eqb c "_"); [done|]. intros Hs. by rewrite IH.
Qed.

(** With exactly one underscore in the ID, [id[1]] is what follows it. *)
Lemma strings_Split_one_underscore (s x : string) :
  underscores s = 1 ->
  after_first_underscore s = Some x ->
  strings_Split s "_" !! 1%nat = Some x.
Proof.
  induction s as [|c s IH]; cbn; [done|].
  destruct (Ascii.eqb c "_").
  - intros Hs [= <-]. rewrite strings_Split_no_sep by lia. done.
  - intros Hs Hx. specialize (IH Hs Hx).
    destruct (strings_Split_cons s "_") as (piece & pieces & Hsplit).
    by rewrite Hsplit in *.
Qed.

(** C3, amended: the read handler calls [GetDNSRecordList] with the whole
    ID (its interactions are those of that call), and for an ID with
    exactly one underscore it selects the last returned record whose IP is
    what follows the underscore; a not-found error or no such record clears
    the ID. *)
Theorem resourceDNSRecordRead_spec {env : Env} (w : World) (c : Client)
    (d : ResourceData) (h : Heap) (hist : list Event) :
  trace (run w (resourceDNSRecordRead d (MetaClient c)) h hist) =
  trace (run w (GetDNSRecordList c (d_Id d)) h hist) /\
  match run w (GetDNSRecordList c (d_Id d)) h hist with
  | (Returned (records, None), h', tr) =>
      forall recs x,
        Forall2 (points_to h') records recs ->
        underscores (d_Id d) = 1 ->
        after_first_underscore (d_Id d) = Some x ->
        run w (resourceDNSRecordRead d (MetaClient c)) h hist =
        (Returned (read_result d (last_with_ip recs x)), h', tr)
  | (Returned (_, Some e), h', tr) =>
      run w (resourceDNSRecordRead d (MetaClient c)) h hist =
      (Returned (if is_NotFoundError e then (d_SetId d "", []) else (d, diag_FromErr e)),
       h', tr)
  | (Panicked, h', tr) =>
      run w (resourceDNSRecordRead d (MetaClient c)) h hist = (Panicked, h', tr)
  end.
Proof.
  split; [apply resourceDNSRecordRead_trace|].
  pose proof (resourceDNSRecordRead_run w c d h hist) as Hrun.
  destruct (run w (GetDNSRecordList c (d_Id d)) h hist) as [[[[records [e|]]|] h'] tr];
    try done.
  intros recs x HF Hone Hx. apply Hrun; [done|].
  by apply strings_Split_one_underscore.
Qed.

Lemma resourceDNSRecordRead_spec_witness :
  let d := sample_data "a.com_::1" "" "" in
  let w := lenient_library sample_records in
  run w (resourceDNSRecordRead (env := go_1_22) d (MetaClient token_client)) [] [] =
  (Returned (read_result d (Some {| Domain := "a.com"; IP := "::1" |})),
   sample_records,
   [{| ev_call := LocalDNS_GetList 0%nat "a.com_::1";
       ev_answer := (Some <$> sample_records, None) |}]).
Proof.
  intros d w.
  assert (HF : Forall2 (points_to sample_records)
                 [Some 0%nat; Some 1%nat; Some 2%nat; Some 3%nat] sample_records)
    by (by repeat constructor).
  exact (proj2 (resourceDNSRecordRead_spec (env := go_1_22) w token_client d [] [])
           sample_records "::1" HF eq_refl eq_refl).
Defined.

(** C3 as worded fails on an ID with two underscores: the handler compares
    with the piece between them. *)
Lemma Read_selects_after_first_underscore_fails :
  ~ Read_selects_after_first_underscore.
Proof.
  intros Hclaim.
  specialize (Hclaim go_1_22
                (session_world [["a_b_c"; "b"]] {| Success := true; Message := "" |})
                session_client (sample_data "a_b_c" "a_b_c" "b") [] []
                [Some 0%nat] [{| Domain := "a_b_c"; IP := "b" |}] _
                [{| Domain := "a_b_c"; IP := "b" |}] "b_c" eq_refl).
  assert (Hrec : Forall2 (points_to [{| Domain := "a_b_c"; IP := "b" |}])
                         [Some 0%nat] [{| Domain := "a_b_c"; IP := "b" |}])
    by (by repeat constructor).
  specialize (Hclaim Hrec eq_refl).
  apply (f_equal (fun o => match o with
                           | Returned (d, _) => rd_id d
                           | Panicked => ""
                           end)) in Hclaim.
  vm_compute in Hclaim. discriminate Hclaim.
Qed.

(** An ID without an underscore has no [id[1]]: the handler panics on the
    first record it is given. *)
Example resourceDNSRecordRead_no_underscore :
  outcome (run (lenient_library sample_records)
             (resourceDNSRecordRead (env := go_1_22) (sample_data "a.com" "" "")
                (MetaClient token_client)) [] []) = Panicked.
Proof. reflexivity. Qed.

(** Creating on the sample Pi-hole: the add request carries the two
    attributes and the ID is made of them. *)
Example resourceDNSRecordCreate_sample :
  let res := run sample_pihole
               (resourceDNSRecordCreate (env := go_1_22)
                  (sample_data "" "x.com" "9.9.9.9") (MetaClient session_client)) [] [] in
  requests (trace res) = [post (add_form {| Domain := "x.com"; IP := "9.9.9.9" |})] /\
  outcome res = Returned (sample_data "x.com_9.9.9.9" "x.com" "9.9.9.9", []).
Proof. split; reflexivity. Qed.

(** * Further properties *)

Lemma row_to_record_None row : row_to_record row = None <-> short_row row.
Proof.
  unfold short_row. destruct row as [|d [|ip row]]; cbn; split; try done; lia.
Qed.

Lemma ToDNSRecordList_loop_None rows acc :
  ToDNSRecordList_loop rows acc = None <-> Exists short_row rows.
Proof.
  revert acc. induction rows as [|row rows IH]; intros acc; cbn.
  - split; [done|]. by intros ?%Exists_nil.
  - rewrite Exists_cons, <- row_to_record_None.
    destruct (row_to_record row) as [r|]; cbn.
    + rewrite IH. split; [auto|]. by intros [?|?].
    + split; auto.
Qed.

(** X1: [ToDNSRecordList] panics exactly when some row of [Data] has fewer
    than two entries. *)
Theorem ToDNSRecordList_panics_iff (rr : DNSRecordsListResponse) :
  ToDNSRecordList rr = None <-> Exists short_row (Data rr).
Proof. apply ToDNSRecordList_loop_None. Qed.

Section ListOutcome.
Context {env : Env} (w : World).

(** X2: the session path of [ListDNSRecords] leaves the heap alone and
    returns the first error among its interactions with a nil list; without
    an error it decoded one response and returns its conversion, or panics
    where the conversion does. *)
Theorem ListDNSRecords_session_outcome (c : Client) (h : Heap) (hist : list Event) :
  tokenClient c = None ->
  exists o tr,
    run w (ListDNSRecords c) h hist = (o, h, tr) /\
    match first_error tr with
    | Some e => o = Returned ([], Some e)
    | None =>
        exists rr, omap decoded_list tr = [(rr, None)] /\
          o = match ToDNSRecordList rr with
              | Some lst => Returned (lst, None)
              | None => Panicked
              end
    end.
Proof.
  intros Hc. unfold ListDNSRecords. rewrite Hc.
  answers w.
  all: try (destruct (ToDNSRecordList _) eqn:Hconv); cbn.
  all: eexists _, _; (split; [reflexivity|]); cbn; try done.
  all: eexists; split; [reflexivity|]; by rewrite Hconv.
Qed.
End ListOutcome.

Lemma orderly_nil : orderly [].
Proof. split; [done|constructor]. Qed.

Lemma orderly_app tr1 tr2 : orderly tr1 -> orderly tr2 -> orderly (tr1 ++ tr2).
Proof.
  unfold orderly, closed, opened, requests. intros [Hc1 Hr1] [Hc2 Hr2].
  rewrite !omap_app, Hc1, Hc2. split; [done|]. by apply Forall_app.
Qed.

Ltac orderly_trace :=
  cbn; split; [reflexivity|];
  repeat (apply Forall_cons; split;
          [split; [reflexivity|split; [reflexivity|cbn; auto]]|]);
  apply Forall_nil; exact I.

Section Invariants.
Context {env : Env} (w : World).

Lemma ListDNSRecords_inv c h hist :
  let res := run w (ListDNSRecords c) h hist in
  orderly (trace res) /\ heap res = h.
Proof.
  unfold ListDNSRecords. destruct (tokenClient c) as [t|].
  - cbn. split; [|done]. orderly_trace.
  - answers w.
    all: try (destruct (ToDNSRecordList _)); cbn.
    all: split; [|done].
    all: orderly_trace.
Qed.

Lemma CreateDNSRecord_inv c record h hist :
  let res := run w (CreateDNSRecord c record) h hist in
  orderly (trace res) /\ h `prefix_of` heap res.
Proof.
  unfold CreateDNSRecord. destruct (tokenClient c) as [t|].
  - rewrite run_load_cases. destruct (deref h record) as [r|].
    + answers w.
      all: rewrite run_mbind, run_import_ptr; cbn.
      all: split; [orderly_trace|by apply prefix_app_r].
    + cbn. split; [apply orderly_nil|done].
  - rewrite run_load_cases. destruct (deref h record) as [r|].
    + answers w.
      all: try destruct (Success _); cbn.
      all: split; [orderly_trace|done].
    + cbn. split; [apply orderly_nil|done].
Qed.

Lemma found_heap_prefix h lst : h `prefix_of` found_heap h lst.
Proof. unfold found_heap. destruct loopvar; by apply prefix_app_r. Qed.

Lemma GetDNSRecordList_inv c domain h hist :
  let res := run w (GetDNSRecordList c domain) h hist in
  orderly (trace res) /\ h `prefix_of` heap res.
Proof.
  destruct (tokenClient c) as [t|] eqn:Hc.
  - rewrite (GetDNSRecordList_token w c t) by done. cbn.
    destruct (w hist (LocalDNS_GetList t domain)) as [records [e|]]; cbn.
    + split; [orderly_trace|done].
    + split; [orderly_trace|by apply prefix_app_r].
  - rewrite GetDNSRecordList_session by done.
    destruct (ListDNSRecords_inv c h hist) as [Ho Hh]. unfold trace, heap in Ho, Hh.
    destruct (run w (ListDNSRecords c) h hist) as [[[[lst [e|]]|] h1] tr];
      cbn in *; subst; (split; [done|]); try done.
    apply found_heap_prefix.
Qed.

Lemma GetDNSRecord_inv c domain h hist :
  let res := run w (GetDNSRecord c domain) h hist in
  orderly (trace res) /\ h `prefix_of` heap res.
Proof.
  unfold GetDNSRecord. destruct (tokenClient c) as [t|] eqn:Hc.
  - answers w.
    + destruct (errors_Is_LocalDNSNotFound e); cbn; (split; [orderly_trace|done]).
    + rewrite run_mbind, run_import_ptr. cbn.
      split; [orderly_trace|by apply prefix_app_r].
  - rewrite run_mbind.
    destruct (GetDNSRecordList_inv c domain h hist) as [Ho Hh]. unfold trace, heap in Ho, Hh.
    destruct (run w (GetDNSRecordList c domain) h hist) as [[[[ps [e|]]|] h1] tr];
      cbn in *; rewrite ?app_nil_r; try done.
    destruct ps; cbn; by rewrite app_nil_r.
Qed.

Lemma DeleteDNSRecord_one_inv record h hist :
  let res := run w (DeleteDNSRecord_one record) h hist in
  orderly (trace res) /\ heap res = h.
Proof.
  unfold DeleteDNSRecord_one. rewrite run_load_cases.
  destruct (deref h record) as [r|].
  - answers w. all: split; [orderly_trace|done].
  - cbn. split; [apply orderly_nil|done].
Qed.

Lemma DeleteDNSRecord_loop_inv records h hist :
  let res := run w (DeleteDNSRecord_loop records) h hist in
  orderly (trace res) /\ heap res = h.
Proof.
  revert hist. induction records as [|record records IH]; intros hist.
  - cbn. split; [apply orderly_nil|done].
  - cbn [DeleteDNSRecord_loop]. rewrite run_mbind.
    destruct (DeleteDNSRecord_one_inv record h hist) as [Ho Hh]. unfold trace, heap in Ho, Hh.
    destruct (run w (DeleteDNSRecord_one record) h hist) as [[[[e|]|] h1] tr];
      cbn in *; subst; rewrite ?app_nil_r; try done.
    destruct (IH (hist ++ tr)) as [Ho' Hh']. unfold trace, heap in Ho', Hh'.
    destruct (run w (DeleteDNSRecord_loop records) h (hist ++ tr)) as [[o h2] tr'].
    cbn in *. split; [by apply orderly_app|done].
Qed.

Lemma DeleteDNSRecord_inv c domain h hist :
  let res := run w (DeleteDNSRecord c domain) h hist in
  orderly (trace res) /\ h `prefix_of` heap res.
Proof.
  unfold DeleteDNSRecord. destruct (tokenClient c) as [t|] eqn:Hc.
  - cbn. split; [orderly_trace|done].
  - rewrite run_mbind.
    destruct (GetDNSRecordList_inv c domain h hist) as [Ho Hh]. unfold trace, heap in Ho, Hh.
    destruct (run w (GetDNSRecordList c domain) h hist) as [[[[ps [e|]]|] h1] tr];
      cbn [on_err]; cbn in *; rewrite ?app_nil_r; try done.
    destruct (DeleteDNSRecord_loop_inv ps h1 (hist ++ tr)) as [Ho' Hh']. unfold trace, heap in Ho', Hh'.
    destruct (run w (DeleteDNSRecord_loop ps) h1 (hist ++ tr)) as [[o h2] tr'].
    cbn in *. subst. split; [by apply orderly_app|done].
Qed.

Lemma operation_inv c op h hist :
  orderly (op_trace w c op h hist) /\ h `prefix_of` op_heap w c op h hist.
Proof.
  destruct op; cbn [op_trace op_heap].
  - destruct (ListDNSRecords_inv c h hist) as [? ->]. done.
  - apply CreateDNSRecord_inv.
  - apply GetDNSRecord_inv.
  - apply GetDNSRecordList_inv.
  - apply DeleteDNSRecord_inv.
Qed.

(** X3: in every operation, on either path and also when it panics or
    stops at an error, the bodies closed are the responses that a send
    returned without error, each once and in that order. *)
Theorem bodies_closed (c : Client) (op : Operation) (h : Heap) (hist : list Event) :
  closed (op_trace w c op h hist) = opened (op_trace w c op h hist).
Proof. apply operation_inv. Qed.

(** X4: every request that an operation builds is a POST to customdns.php
    whose action is get, add or delete. *)
Theorem requests_to_customdns (c : Client) (op : Operation) (h : Heap)
    (hist : list Event) :
  Forall customdns_request (requests (op_trace w c op h hist)).
Proof. apply operation_inv. Qed.

(** X5: no operation changes a record that existed before it: what a
    pointer designated before the call it designates after it. *)
Theorem records_not_modified (c : Client) (op : Operation) (h : Heap)
    (hist : list Event) (p : ptr) (r : DNSRecord) :
  deref h p = Some r -> deref (op_heap w c op h hist) p = Some r.
Proof.
  intros Hp. destruct (operation_inv c op h hist) as [_ [k ->]].
  by apply deref_app.
Qed.

End Invariants.

Section Lookups.
Context {env : Env} (w : World).

(** X6: on the session path [GetDNSRecordList] hands on the error or the
    panic of the listing with the same interactions; after a listing it
    returns as many pointers as records have the lowercased domain, with
    the not-found error exactly when there is none.  This holds under
    either loop variable rule. *)
Theorem GetDNSRecordList_session_count (c : Client) (domain : string) (h : Heap)
    (hist : list Event) :
  tokenClient c = None ->
  match run w (ListDNSRecords c) h hist with
  | (Returned (lst, None), _, tr) =>
      let n := length (List.filter (matches domain) lst) in
      exists ps h2,
        run w (GetDNSRecordList c domain) h hist =
          (Returned (ps, if Nat.eqb n 0
                         then Some (NewNotFoundError (not_found_msg domain))
                         else None), h2, tr) /\
        length ps = n
  | (Returned (_, Some e), h1, tr) =>
      run w (GetDNSRecordList c domain) h hist = (Returned ([], Some e), h1, tr)
  | (Panicked, h1, tr) =>
      run w (GetDNSRecordList c domain) h hist = (Panicked, h1, tr)
  end.
Proof.
  intros Hc. rewrite GetDNSRecordList_session by done.
  destruct (run w (ListDNSRecords c) h hist) as [[[[lst [e|]]|] h1] tr]; try done.
  cbv zeta. rewrite <- (found_ptrs_length h1 lst domain).
  destruct (found_ptrs h1 lst domain) as [|p ps]; eexists _, _; by split.
Qed.

Lemma GetDNSRecordList_session_none c domain h hist lst h1 tr :
  tokenClient c = None ->
  run w (ListDNSRecords c) h hist = (Returned (lst, None), h1, tr) ->
  List.filter (matches domain) lst = [] ->
  run w (GetDNSRecordList c domain) h hist =
  (Returned ([], Some (NewNotFoundError (not_found_msg domain))), found_heap h1 lst, tr).
Proof.
  intros Hc Hlist Hnone. rewrite GetDNSRecordList_session, Hlist by done.
  pose proof (found_ptrs_length h1 lst domain) as Hlen. rewrite Hnone in Hlen.
  by destruct (found_ptrs h1 lst domain).
Qed.

Lemma addrs_ge base lst domain p :
  p ∈ addrs base lst domain -> exists a, p = Some a /\ base <= a.
Proof.
  revert base. induction lst as [|elem lst IH]; intros base; cbn [addrs].
  - by intros ?%elem_of_nil.
  - intros [Hin|Hin]%elem_of_app.
    + destruct (matches domain elem); [|by apply elem_of_nil in Hin].
      apply list_elem_of_singleton in Hin as ->. by exists base.
    + destruct (IH _ Hin) as (a & -> & Ha). exists a. split; [done|lia].
Qed.

Lemma addrs_NoDup base lst domain : NoDup (addrs base lst domain).
Proof.
  revert base. induction lst as [|elem lst IH]; intros base; cbn [addrs].
  - constructor.
  - apply NoDup_app. split; [|split; [|apply IH]].
    + destruct (matches domain elem); [apply NoDup_singleton|constructor].
    + intros p Hp Hin. destruct (matches domain elem); [|by apply elem_of_nil in Hp].
      apply list_elem_of_singleton in Hp as ->.
      destruct (addrs_ge _ _ _ _ Hin) as (a & [= <-] & Ha). lia.
Qed.

(** X7: with a variable per iteration, after a listing the session path of
    [GetDNSRecordList] returns pointers to exactly the records that have
    the lowercased domain, in the order of the listing, no two of them the
    same pointer; with no such record it returns the not-found error. *)
Theorem GetDNSRecordList_points_to_matches (c : Client) (domain : string)
    (h : Heap) (hist : list Event) (lst : DNSRecordList) (h1 : Heap)
    (tr : list Event) :
  loopvar = PerIteration ->
  tokenClient c = None ->
  run w (ListDNSRecords c) h hist = (Returned (lst, None), h1, tr) ->
  exists ps h2,
    run w (GetDNSRecordList c domain) h hist =
      (Returned (match List.filter (matches domain) lst with
                 | [] => ([], Some (NewNotFoundError (not_found_msg domain)))
                 | _ => (ps, None)
                 end), h2, tr) /\
    Forall2 (points_to h2) ps (List.filter (matches domain) lst) /\
    NoDup ps.
Proof.
  intros Hlv Hc Hlist.
  rewrite GetDNSRecordList_session, Hlist by done.
  unfold found_ptrs, found_heap. rewrite Hlv.
  pose proof (addrs_points_to lst domain h1 []) as HF. rewrite app_nil_r in HF.
  exists (addrs (length h1) lst domain), (h1 ++ lst).
  split; [by destruct HF|]. split; [done|apply addrs_NoDup].
Qed.

(** X11: on the session path, after a listing with a matching record,
    [DeleteDNSRecord] builds only delete requests after the listing, at
    most one per matching record and exactly one per matching record when it
    returns nil; a returned error is the answer to its last interaction.
    This holds under either loop variable rule. *)
Theorem DeleteDNSRecord_session_count (c : Client) (domain : string) (h : Heap)
    (hist : list Event) (lst : DNSRecordList) (h1 : Heap) (tr1 : list Event) :
  tokenClient c = None ->
  run w (ListDNSRecords c) h hist = (Returned (lst, None), h1, tr1) ->
  List.filter (matches domain) lst <> [] ->
  exists err h2 tr2,
    run w (DeleteDNSRecord c domain) h hist = (Returned err, h2, tr1 ++ tr2) /\
    Forall (fun rq => action_of rq.2 = Some ["delete"]) (requests tr2) /\
    length (requests tr2) <= length (List.filter (matches domain) lst) /\
    (err = None ->
     length (requests tr2) = length (List.filter (matches domain) lst)) /\
    stops_at_error err tr2.
Proof.
  intros Hc Hlist Hsome.
  unfold DeleteDNSRecord. rewrite Hc, run_mbind, GetDNSRecordList_session, Hlist by done.
  pose proof (found_ptrs_length h1 lst domain) as Hlen.
  destruct (found_ptrs_valid h1 lst domain) as (recs & HF).
  pose proof (Forall2_length _ _ _ HF) as Hrecs.
  destruct (found_ptrs h1 lst domain) as [|p ps] eqn:Hps.
  { destruct (List.filter (matches domain) lst); done. }
  cbn [on_err].
  destruct (DeleteDNSRecord_loop_run w (p :: ps) recs _ (hist ++ tr1) HF)
    as (err & tr2 & n & -> & _ & Hr & Hn & Hall & He).
  exists err, (found_heap h1 lst), tr2. split; [done|].
  rewrite Hr, length_fmap, length_take.
  split; [|split; [lia|split; [|done]]].
  - apply Forall_fmap. by apply Forall_true.
  - intros Herr. rewrite (Hall Herr). lia.
Qed.

(** X9: on the token path an error of the library that is (or wraps)
    [ErrorLocalDNSNotFound] comes back from [GetDNSRecordList] and
    [GetDNSRecord] as the package's [NotFoundError], any other error as it
    is; the result is nil, the heap untouched and the library call the only
    interaction. *)
Theorem library_error_translated (c : Client) (t : TokenClient) (domain : string)
    (h : Heap) (hist : list Event) (e : error) :
  tokenClient c = Some t ->
  (snd (w hist (LocalDNS_GetList t domain)) = Some e ->
   run w (GetDNSRecordList c domain) h hist =
   (Returned ([], Some (translate_not_found domain e)), h,
    [{| ev_call := LocalDNS_GetList t domain;
        ev_answer := w hist (LocalDNS_GetList t domain) |}])) /\
  (snd (w hist (LocalDNS_Get t domain)) = Some e ->
   run w (GetDNSRecord c domain) h hist =
   (Returned (None, Some (translate_not_found domain e)), h,
    [{| ev_call := LocalDNS_Get t domain;
        ev_answer := w hist (LocalDNS_Get t domain) |}])) /\
  is_NotFoundError (translate_not_found domain e) =
    errors_Is_LocalDNSNotFound e || is_NotFoundError e.
Proof.
  intros Hc. split; [|split].
  - intros He. rewrite (GetDNSRecordList_token w c t) by done.
    destruct (w hist (LocalDNS_GetList t domain)) as [records [e'|]]; cbn in *; [|done].
    by injection He as ->.
  - intros He. unfold GetDNSRecord. rewrite Hc. cbn.
    destruct (w hist (LocalDNS_Get t domain)) as [record [e'|]]; cbn in *; [|done].
    injection He as ->. unfold translate_not_found.
    by destruct (errors_Is_LocalDNSNotFound e).
  - unfold translate_not_found. by destruct (errors_Is_LocalDNSNotFound e).
Qed.

End Lookups.

Lemma strings_Split_app (s t : string) (sep : ascii) :
  strings_Split (s +:+ String sep t) sep = strings_Split s sep ++ strings_Split t sep.
Proof.
  induction s as [|c s IH].
  - change (strings_Split (String sep t) sep = "" :: strings_Split t sep).
    cbn -[Ascii.eqb]. by rewrite Ascii.eqb_refl.
  - change (String c s +:+ String sep t) with (String c (s +:+ String sep t)).
    cbn -[Ascii.eqb String.append].
    rewrite IH. destruct (Ascii.eqb c sep); [done|].
    destruct (strings_Split_cons s sep) as (piece & pieces & ->). done.
Qed.

Lemma strings_Split_length (s : string) :
  length (strings_Split s "_") = S (underscores s).
Proof.
  induction s as [|c s IH]; cbn; [done|].
  destruct (Ascii.eqb c "_"); cbn; [by rewrite IH|].
  destruct (strings_Split_cons s "_") as (piece & pieces & Hs).
  rewrite Hs in *. done.
Qed.

(** The ID that the create handler makes of a domain and an IP without
    underscores splits back into the two. *)
Lemma created_id_pieces (domain ip : string) :
  underscores domain = 0 -> underscores ip = 0 ->
  strings_Split (domain +:+ "_" +:+ ip) "_" = [domain; ip].
Proof.
  intros Hd Hi. change (domain +:+ "_" +:+ ip) with (domain +:+ String "_" ip).
  by rewrite strings_Split_app, !strings_Split_no_sep.
Qed.

(** With an underscore in the domain, [id[1]] of the created ID is a piece
    of the domain. *)
Lemma underscore_domain_piece (domain ip : string) :
  0 < underscores domain ->
  strings_Split (domain +:+ "_" +:+ ip) "_" !! 1%nat =
  strings_Split domain "_" !! 1%nat.
Proof.
  intros Hd. change (domain +:+ "_" +:+ ip) with (domain +:+ String "_" ip).
  rewrite strings_Split_app. apply lookup_app_l.
  rewrite strings_Split_length. lia.
Qed.

Lemma last_with_ip_Some recs ip r :
  last_with_ip recs ip = Some r -> r ∈ recs /\ IP r = ip.
Proof.
  unfold last_with_ip. intros Hlast.
  assert (Hin : In r (List.filter (fun r => String.eqb (IP r) ip) recs)).
  { apply list_elem_of_In. rewrite last_lookup in Hlast.
    by eapply list_elem_of_lookup_2. }
  apply filter_In in Hin as [Hin Hip]. split; [by apply list_elem_of_In|].
  by apply String.eqb_eq.
Qed.

Section MoreHandlers.
Context {env : Env} (w : World).

(** X13: for an ID without an underscore, as an import can set it, the
    read handler panics on [id[1]] as soon as [GetDNSRecordList] returns a
    record. *)
Theorem resourceDNSRecordRead_no_underscore_panics (c : Client) (d : ResourceData)
    (h : Heap) (hist : list Event) p ps h' tr :
  underscores (d_Id d) = 0 ->
  run w (GetDNSRecordList c (d_Id d)) h hist = (Returned (p :: ps, None), h', tr) ->
  run w (resourceDNSRecordRead d (MetaClient c)) h hist = (Panicked, h', tr).
Proof.
  intros Hid Hrun. unfold resourceDNSRecordRead. rewrite run_mbind, Hrun.
  rewrite run_mbind. cbn [resourceDNSRecordRead_loop]. rewrite run_load_cases.
  rewrite strings_Split_no_sep by done.
  destruct (deref h' p); cbn; by rewrite app_nil_r.
Qed.

(** X14: on the session path the read handler clears the ID, without a
    diagnostic, whenever no listed record has the lowercased whole ID as its
    domain. *)
Theorem resourceDNSRecordRead_session_clears (c : Client) (d : ResourceData)
    (h : Heap) (hist : list Event) lst h1 tr :
  tokenClient c = None ->
  run w (ListDNSRecords c) h hist = (Returned (lst, None), h1, tr) ->
  List.filter (matches (d_Id d)) lst = [] ->
  exists h2,
    run w (resourceDNSRecordRead d (MetaClient c)) h hist =
    (Returned (d_SetId d "", []), h2, tr).
Proof.
  intros Hc Hlist Hnone. unfold resourceDNSRecordRead.
  rewrite run_mbind, (GetDNSRecordList_session_none w c (d_Id d) h hist lst h1 tr)
    by done.
  cbn. rewrite app_nil_r. by eexists.
Qed.

(** X15: on the token path, when the library answers the lookup with an
    error, the read handler clears the ID without a diagnostic if the error
    is a not-found one and otherwise returns it as a diagnostic with the
    resource data unchanged. *)
Theorem resourceDNSRecordRead_library_error (c : Client) (t : TokenClient)
    (d : ResourceData) (h : Heap) (hist : list Event) (e : error) :
  tokenClient c = Some t ->
  snd (w hist (LocalDNS_GetList t (d_Id d))) = Some e ->
  run w (resourceDNSRecordRead d (MetaClient c)) h hist =
  (Returned (if errors_Is_LocalDNSNotFound e || is_NotFoundError e
             then (d_SetId d "", [])
             else (d, diag_FromErr e)), h,
   [{| ev_call := LocalDNS_GetList t (d_Id d);
       ev_answer := w hist (LocalDNS_GetList t (d_Id d)) |}]).
Proof.
  intros Hc He. unfold resourceDNSRecordRead.
  rewrite run_mbind, (GetDNSRecordList_token w c t) by done.
  destruct (w hist (LocalDNS_GetList t (d_Id d))) as [records [e'|]]; cbn in *; [|done].
  injection He as ->.
  destruct (errors_Is_LocalDNSNotFound e); [done|].
  by destruct (is_NotFoundError e).
Qed.

(** X16: for a domain and an IP without underscores, the read handler on
    the ID that the create handler sets selects the last returned record
    whose IP is the IP attribute. *)
Theorem resourceDNSRecordRead_created_id (c : Client) (d : ResourceData)
    (h : Heap) (hist : list Event) :
  let domain := d_Get d "domain" in
  let ip := d_Get d "ip" in
  let d' := d_SetId d (domain +:+ "_" +:+ ip) in
  underscores domain = 0 -> underscores ip = 0 ->
  forall records h' tr recs,
    run w (GetDNSRecordList c (d_Id d')) h hist = (Returned (records, None), h', tr) ->
    Forall2 (points_to h') records recs ->
    run w (resourceDNSRecordRead d' (MetaClient c)) h hist =
    (Returned (read_result d' (last_with_ip recs ip)), h', tr).
Proof.
  intros domain ip d' Hd Hi records h' tr recs Hrun HF.
  pose proof (resourceDNSRecordRead_run w c d' h hist) as Hread.
  rewrite Hrun in Hread. apply Hread; [done|].
  change (d_Id d') with (domain +:+ "_" +:+ ip).
  by rewrite created_id_pieces.
Qed.

(** X18: when the read handler selects a record it keeps the ID, writes the
    record's domain and IP to the attributes and returns no diagnostic; the
    record is one of those returned and the IP attribute ends as [id[1]]. *)
Theorem resourceDNSRecordRead_refreshes (c : Client) (d : ResourceData) (h : Heap)
    (hist : list Event) records h' tr recs id1 r :
  is_Some (rd_schema d !! "domain") -> is_Some (rd_schema d !! "ip") ->
  run w (GetDNSRecordList c (d_Id d)) h hist = (Returned (records, None), h', tr) ->
  Forall2 (points_to h') records recs ->
  strings_Split (d_Id d) "_" !! 1%nat = Some id1 ->
  last_with_ip recs id1 = Some r ->
  run w (resourceDNSRecordRead d (MetaClient c)) h hist =
    (Returned (refreshed d r, []), h', tr) /\
  r ∈ recs /\
  d_Id (refreshed d r) = d_Id d /\
  d_Get (refreshed d r) "domain" = Domain r /\
  d_Get (refreshed d r) "ip" = id1.
Proof.
  intros [s1 Hs1] [s2 Hs2] Hrun HF Hid Hlast.
  pose proof (resourceDNSRecordRead_run w c d h hist) as Hread.
  rewrite Hrun in Hread. rewrite (Hread recs id1 HF Hid), Hlast.
  destruct (last_with_ip_Some recs id1 r Hlast) as [Hin Hip].
  split; [|split; [done|split; [done|]]].
  - unfold read_result, d_Set. rewrite Hs1. cbn. by rewrite Hs2.
  - unfold d_Get, refreshed. cbn. rewrite lookup_insert_ne by done.
    rewrite !lookup_insert_eq. by rewrite Hip.
Qed.

(** X19: with a token client the delete handler's only interaction is the
    library's [Delete] with the whole ID; a nil answer clears the ID, an
    error is returned as a diagnostic with the resource data unchanged. *)
Theorem resourceDNSRecordDelete_token (c : Client) (t : TokenClient)
    (d : ResourceData) (h : Heap) (hist : list Event) :
  tokenClient c = Some t ->
  run w (resourceDNSRecordDelete d (MetaClient c)) h hist =
  (Returned (match w hist (LocalDNS_Delete t (d_Id d)) with
             | None => (d_SetId d "", [])
             | Some e => (d, diag_FromErr e)
             end), h,
   [{| ev_call := LocalDNS_Delete t (d_Id d);
       ev_answer := w hist (LocalDNS_Delete t (d_Id d)) |}]).
Proof.
  intros Hc. unfold resourceDNSRecordDelete, DeleteDNSRecord. rewrite Hc. cbn.
  by destruct (w hist (LocalDNS_Delete t (d_Id d))).
Qed.

(** X20: on the session path the delete handler returns the not-found
    error as a diagnostic, keeps the ID and builds no delete request
    whenever no listed record has the lowercased whole ID as its domain. *)
Theorem resourceDNSRecordDelete_session_not_found (c : Client) (d : ResourceData)
    (h : Heap) (hist : list Event) lst h1 tr :
  tokenClient c = None ->
  run w (ListDNSRecords c) h hist = (Returned (lst, None), h1, tr) ->
  List.filter (matches (d_Id d)) lst = [] ->
  exists h2,
    run w (resourceDNSRecordDelete d (MetaClient c)) h hist =
    (Returned (d, diag_FromErr (NewNotFoundError (not_found_msg (d_Id d)))), h2, tr).
Proof.
  intros Hc Hlist Hnone. unfold resourceDNSRecordDelete, DeleteDNSRecord.
  rewrite Hc, run_mbind, run_mbind,
    (GetDNSRecordList_session_none w c (d_Id d) h hist lst h1 tr) by done.
  cbn. rewrite !app_nil_r. by eexists.
Qed.

(** X17: for a domain with an underscore, the read handler on the ID that
    the create handler sets compares the IP of the records with the second
    piece of the domain, whatever the IP attribute. *)
Theorem resourceDNSRecordRead_underscore_domain (c : Client) (d : ResourceData)
    (h : Heap) (hist : list Event) :
  let domain := d_Get d "domain" in
  let ip := d_Get d "ip" in
  let d' := d_SetId d (domain +:+ "_" +:+ ip) in
  0 < underscores domain ->
  forall records h' tr recs id1,
    run w (GetDNSRecordList c (d_Id d')) h hist = (Returned (records, None), h', tr) ->
    Forall2 (points_to h') records recs ->
    strings_Split domain "_" !! 1%nat = Some id1 ->
    run w (resourceDNSRecordRead d' (MetaClient c)) h hist =
    (Returned (read_result d' (last_with_ip recs id1)), h', tr).
Proof.
  intros domain ip d' Hd records h' tr recs id1 Hrun HF Hid.
  pose proof (resourceDNSRecordRead_run w c d' h hist) as Hread.
  rewrite Hrun in Hread. apply Hread; [done|].
  change (d_Id d') with (domain +:+ "_" +:+ ip).
  by rewrite underscore_domain_piece.
Qed.

End MoreHandlers.

(** ** The further properties on the sample worlds *)

Lemma records_not_modified_witness :
  let h := [{| Domain := "x.com"; IP := "9.9.9.9" |}] in
  deref (op_heap (env := go_before_1_22) sample_pihole session_client
           (OpDelete "a.com") h []) (Some 0%nat) =
  Some {| Domain := "x.com"; IP := "9.9.9.9" |}.
Proof.
  exact (records_not_modified (env := go_before_1_22) sample_pihole session_client
           (OpDelete "a.com") [{| Domain := "x.com"; IP := "9.9.9.9" |}] []
           (Some 0%nat) {| Domain := "x.com"; IP := "9.9.9.9" |} eq_refl).
Defined.

Lemma GetDNSRecordList_session_count_witness :
  exists ps h2,
    run sample_pihole (GetDNSRecordList (env := go_before_1_22) session_client "a.com")
      [] [] =
      (Returned (ps, None), h2,
       trace (run sample_pihole (ListDNSRecords session_client) [] [])) /\
    length ps = 2.
Proof.
  exact (GetDNSRecordList_session_count (env := go_before_1_22) sample_pihole
           session_client "a.com" [] [] eq_refl).
Defined.

Lemma GetDNSRecordList_points_to_matches_witness :
  exists ps h2,
    run sample_pihole (GetDNSRecordList (env := go_1_22) session_client "a.com") [] [] =
      (Returned (ps, None), h2,
       trace (run sample_pihole (ListDNSRecords session_client) [] [])) /\
    Forall2 (points_to h2) ps
      [{| Domain := "a.com"; IP := "1.1.1.1" |}; {| Domain := "a.com"; IP := "::1" |}] /\
    NoDup ps.
Proof.
  exact (GetDNSRecordList_points_to_matches (env := go_1_22) sample_pihole
           session_client "a.com" [] [] sample_records []
           (trace (run sample_pihole (ListDNSRecords session_client) [] []))
           eq_refl eq_refl eq_refl).
Defined.

Lemma GetDNSRecordList_session_per_loop_witness :
  exists ps h2,
    run sample_pihole (GetDNSRecordList (env := go_before_1_22) session_client "a.com")
      [] [] =
      (Returned (ps, None), h2,
       trace (run sample_pihole (ListDNSRecords session_client) [] [])) /\
    length ps = 2 /\
    Forall (fun p => points_to h2 p {| Domain := "c.com"; IP := "3.3.3.3" |}) ps.
Proof.
  exact (GetDNSRecordList_session_per_loop (env := go_before_1_22) sample_pihole
           session_client "a.com" [] [] sample_records []
           (trace (run sample_pihole (ListDNSRecords session_client) [] []))
           eq_refl eq_refl eq_refl).
Defined.

Lemma ListDNSRecords_session_outcome_witness :
  exists o tr,
    run (failing_world sample_rows 0) (ListDNSRecords session_client) [] [] = (o, [], tr) /\
    match first_error tr with
    | Some e => o = Returned ([], Some e)
    | None =>
        exists rr, omap decoded_list tr = [(rr, None)] /\
          o = match ToDNSRecordList rr with
              | Some lst => Returned (lst, None)
              | None => Panicked
              end
    end.
Proof.
  exact (ListDNSRecords_session_outcome (failing_world sample_rows 0) session_client
           [] [] eq_refl).
Defined.

Lemma library_error_translated_witness :
  let w := library_world sample_records in
  let e := Wrapped "d.com" ErrorLocalDNSNotFound in
  run w (GetDNSRecordList (env := go_1_22) token_client "d.com") [] [] =
    (Returned ([], Some (NotFoundError ("dns record with domain " +:+ GoStd.Quote "d.com"
                                        +:+ " not found"))), [],
     [{| ev_call := LocalDNS_GetList 0%nat "d.com"; ev_answer := ([], Some e) |}]).
Proof.
  intros w e.
  exact (proj1 (library_error_translated (env := go_1_22) w token_client 0%nat "d.com"
                  [] [] e eq_refl) eq_refl).
Defined.

Lemma CreateDNSRecord_session_result_witness :
  let r := {| Domain := "x.com"; IP := "9.9.9.9" |} in
  exists o tr,
    run sample_pihole (CreateDNSRecord (env := go_1_22) session_client (Some 0%nat))
      [r] [] = (o, [r], tr) /\
    match omap decoded_create tr with
    | [] => exists e, o = Returned (None, Some e) /\ stops_at_error (Some e) tr
    | [(_, Some e)] => o = Returned (None, Some e)
    | [(created, None)] =>
        o = Returned (if Success created then (Some 0%nat, None)
                      else (None, Some (ErrorString (GoStd.Errorf0 (Message created)))))
    | _ => False
    end.
Proof.
  intros r.
  exact (CreateDNSRecord_session_result (env := go_1_22) sample_pihole session_client
           (Some 0%nat) r [r] [] eq_refl eq_refl).
Defined.

Lemma DeleteDNSRecord_session_count_witness :
  exists err h2 tr2,
    run sample_pihole (DeleteDNSRecord (env := go_before_1_22) session_client "a.com")
      [] [] =
      (Returned err, h2,
       trace (run sample_pihole (ListDNSRecords session_client) [] []) ++ tr2) /\
    Forall (fun rq => action_of rq.2 = Some ["delete"]) (requests tr2) /\
    length (requests tr2) <= 2 /\
    (err = None -> length (requests tr2) = 2) /\
    stops_at_error err tr2.
Proof.
  apply (DeleteDNSRecord_session_count (env := go_before_1_22) sample_pihole
           session_client "a.com" [] [] sample_records []
           (trace (run sample_pihole (ListDNSRecords session_client) [] []))).
  - reflexivity.
  - reflexivity.
  - cbn. discriminate.
Defined.

Lemma DeleteDNSRecord_session_per_iteration_witness :
  exists err h2 tr2 n,
    run sample_pihole (DeleteDNSRecord (env := go_1_22) session_client "a.com") [] [] =
      (Returned err, h2,
       trace (run sample_pihole (ListDNSRecords session_client) [] []) ++ tr2) /\
    requests (trace (run sample_pihole (ListDNSRecords session_client) [] []) ++ tr2) =
      post get_form ::
      ((fun r => post (delete_form r)) <$>
       take n [{| Domain := "a.com"; IP := "1.1.1.1" |};
               {| Domain := "a.com"; IP := "::1" |}]) /\
    n <= 2 /\
    (err = None -> n = 2) /\
    stops_at_error err tr2.
Proof.
  apply (DeleteDNSRecord_session_per_iteration (env := go_1_22) sample_pihole
           session_client "a.com" [] [] sample_records []
           (trace (run sample_pihole (ListDNSRecords session_client) [] []))).
  - reflexivity.
  - reflexivity.
  - reflexivity.
  - cbn. discriminate.
Defined.

Lemma resourceDNSRecordRead_no_underscore_panics_witness :
  run sample_pihole
    (resourceDNSRecordRead (env := go_1_22) (sample_data "a.com" "" "")
       (MetaClient session_client)) [] [] =
  (Panicked, sample_records,
   trace (run sample_pihole (ListDNSRecords session_client) [] [])).
Proof.
  exact (resourceDNSRecordRead_no_underscore_panics (env := go_1_22) sample_pihole
           session_client (sample_data "a.com" "" "") [] []
           (Some 0%nat) [Some 2%nat] sample_records
           (trace (run sample_pihole (ListDNSRecords session_client) [] []))
           eq_refl eq_refl).
Defined.

Lemma resourceDNSRecordRead_session_clears_witness :
  let d := sample_data "a.com_1.1.1.1" "a.com" "1.1.1.1" in
  exists h2,
    run sample_pihole
      (resourceDNSRecordRead (env := go_1_22) d (MetaClient session_client)) [] [] =
    (Returned (d_SetId d "", []), h2,
     trace (run sample_pihole (ListDNSRecords session_client) [] [])).
Proof.
  intros d.
  exact (resourceDNSRecordRead_session_clears (env := go_1_22) sample_pihole
           session_client d [] [] sample_records []
           (trace (run sample_pihole (ListDNSRecords session_client) [] []))
           eq_refl eq_refl eq_refl).
Defined.

Lemma resourceDNSRecordRead_library_error_witness :
  let d := sample_data "d.com_1.1.1.1" "d.com" "1.1.1.1" in
  let w := library_world sample_records in
  run w (resourceDNSRecordRead (env := go_1_22) d (MetaClient token_client)) [] [] =
  (Returned (d_SetId d "", []), [],
   [{| ev_call := LocalDNS_GetList 0%nat "d.com_1.1.1.1";
       ev_answer := ([], Some (Wrapped "d.com_1.1.1.1" ErrorLocalDNSNotFound)) |}]).
Proof.
  intros d w.
  exact (resourceDNSRecordRead_library_error (env := go_1_22) w token_client 0%nat d
           [] [] (Wrapped "d.com_1.1.1.1" ErrorLocalDNSNotFound) eq_refl eq_refl).
Defined.

Lemma resourceDNSRecordRead_created_id_witness :
  let d := sample_data "" "a.com" "::1" in
  let d' := d_SetId d "a.com_::1" in
  let w := lenient_library sample_records in
  run w (resourceDNSRecordRead (env := go_1_22) d' (MetaClient token_client)) [] [] =
  (Returned (read_result d' (Some {| Domain := "a.com"; IP := "::1" |})),
   sample_records,
   [{| ev_call := LocalDNS_GetList 0%nat "a.com_::1";
       ev_answer := (Some <$> sample_records, None) |}]).
Proof.
  intros d d' w.
  assert (HF : Forall2 (points_to sample_records)
                 [Some 0%nat; Some 1%nat; Some 2%nat; Some 3%nat] sample_records)
    by (by repeat constructor).
  exact (resourceDNSRecordRead_created_id (env := go_1_22) w token_client d [] []
           eq_refl eq_refl _ _ _ sample_records eq_refl HF).
Defined.

Lemma resourceDNSRecordRead_underscore_domain_witness :
  let d := sample_data "" "a_b.com" "1.1.1.1" in
  let d' := d_SetId d "a_b.com_1.1.1.1" in
  let w := lenient_library [{| Domain := "a_b.com"; IP := "1.1.1.1" |}] in
  run w (resourceDNSRecordRead (env := go_1_22) d' (MetaClient token_client)) [] [] =
  (Returned (d_SetId d' "", []),
   [{| Domain := "a_b.com"; IP := "1.1.1.1" |}],
   [{| ev_call := LocalDNS_GetList 0%nat "a_b.com_1.1.1.1";
       ev_answer := ([Some {| Domain := "a_b.com"; IP := "1.1.1.1" |}], None) |}]).
Proof.
  intros d d' w.
  assert (HF : Forall2 (points_to [{| Domain := "a_b.com"; IP := "1.1.1.1" |}])
                 [Some 0%nat] [{| Domain := "a_b.com"; IP := "1.1.1.1" |}])
    by (by repeat constructor).
  assert (Hlt : 0 < underscores "a_b.com") by (cbn; lia).
  exact (resourceDNSRecordRead_underscore_domain (env := go_1_22) w token_client d [] []
           Hlt _ _ _ _ "b.com" eq_refl HF eq_refl).
Defined.

Lemma resourceDNSRecordRead_refreshes_witness :
  let d := sample_data "a.com_::1" "" "" in
  let r := {| Domain := "a.com"; IP := "::1" |} in
  let w := lenient_library sample_records in
  run w (resourceDNSRecordRead (env := go_1_22) d (MetaClient token_client)) [] [] =
    (Returned (refreshed d r, []), sample_records,
     [{| ev_call := LocalDNS_GetList 0%nat "a.com_::1";
         ev_answer := (Some <$> sample_records, None) |}]) /\
  r ∈ sample_records /\
  d_Id (refreshed d r) = d_Id d /\
  d_Get (refreshed d r) "domain" = Domain r /\
  d_Get (refreshed d r) "ip" = "::1".
Proof.
  intros d r w.
  assert (HF : Forall2 (points_to sample_records)
                 [Some 0%nat; Some 1%nat; Some 2%nat; Some 3%nat] sample_records)
    by (by repeat constructor).
  assert (Hd : is_Some (rd_schema d !! "domain")) by (by eexists).
  assert (Hi : is_Some (rd_schema d !! "ip")) by (by eexists).
  exact (resourceDNSRecordRead_refreshes (env := go_1_22) w token_client d [] []
           _ _ _ sample_records "::1" r Hd Hi eq_refl HF eq_refl eq_refl).
Defined.

Lemma resourceDNSRecordDelete_token_witness :
  let d := sample_data "a.com_::1" "a.com" "::1" in
  run (library_world sample_records)
    (resourceDNSRecordDelete (env := go_1_22) d (MetaClient token_client)) [] [] =
  (Returned (d_SetId d "", []), [],
   [{| ev_call := LocalDNS_Delete 0%nat "a.com_::1"; ev_answer := None |}]).
Proof.
  intros d.
  exact (resourceDNSRecordDelete_token (env := go_1_22) (library_world sample_records)
           token_client 0%nat d [] [] eq_refl).
Defined.

Lemma resourceDNSRecordDelete_session_not_found_witness :
  let d := sample_data "a.com_1.1.1.1" "a.com" "1.1.1.1" in
  exists h2,
    run sample_pihole
      (resourceDNSRecordDelete (env := go_1_22) d (MetaClient session_client)) [] [] =
    (Returned (d, diag_FromErr (NewNotFoundError
                                  (not_found_msg (env := go_1_22) "a.com_1.1.1.1"))),
     h2, trace (run sample_pihole (ListDNSRecords session_client) [] [])).
Proof.
  intros d.
  exact (resourceDNSRecordDelete_session_not_found (env := go_1_22) sample_pihole
           session_client d [] [] sample_records []
           (trace (run sample_pihole (ListDNSRecords session_client) [] []))
           eq_refl eq_refl eq_refl).
Defined.
